(** * Scout chat route: tools, structured output, agent loop, stream tee

    A shallow embedding of [src/app/api/chat/route.ts]: the two Firecrawl
    tools ([scrapeWebsiteTool], [searchWebTool]), the structured-output
    schema ([scoutResponseSchema]), the agent configuration ([chatAgent]:
    [stopWhen], [prepareStep]) and the request handler ([POST]) with its
    tee'd response stream.

    JavaScript values are an inductive type, objects are association lists
    in insertion order, a thrown value is an explicit outcome, and every
    call that leaves the process (model, Firecrawl, console) is recorded in
    an event trace, so that "no call was made" is a statement about the
    trace. *)

From Stdlib Require Import ZArith QArith String Ascii List Lia.
From stdpp Require Import base option list strings pretty.
Import ListNotations.
Open Scope string_scope.
Set Warnings "-register-all".

(* ===================================================================== *)
(** ** JavaScript values and the operators the route uses                *)
(* ===================================================================== *)

Module Js.

(** A JavaScript value as far as the route inspects it.  Numbers are the
    finite ones (JSON has no NaN or Infinity), kept as rationals.  A string
    is the sequence of its code units, one [ascii] each, so that [length]
    and [slice] count what JavaScript counts. *)
Inductive jsval : Type :=
| JUndef
| JNull
| JBool (b : bool)
| JNum (q : Q)
| JStr (s : string)
| JArr (xs : list jsval)
| JObj (fields : list (string * jsval)).

(** What a [throw] carries: an [Error] instance (with its [message]) or
    any other value. *)
Inductive Thrown : Type :=
| ErrorObject (message : string)
| ThrownValue (v : jsval).

(** The result of evaluating an expression that may throw. *)
Inductive Outcome (A : Type) : Type :=
| Return (a : A)
| Throw (e : Thrown).
Arguments Return {A} a.
Arguments Throw {A} e.

Definition dquote : string := String "034"%char EmptyString.
Definition newline : string := String "010"%char EmptyString.

(** [s.length] *)
Definition str_length (s : string) : nat := String.length s.

(** Truthiness of a string: only the empty string is falsy. *)
Definition truthy (s : string) : bool :=
  match s with EmptyString => false | String _ _ => true end.

(** Truthiness of a possibly-undefined string ([if (tbs) ...]). *)
Definition truthy_opt (o : option string) : bool :=
  match o with Some s => truthy s | None => false end.

(** [a || b] where [a] is a possibly-undefined string. *)
Definition or_else (a : option string) (b : string) : string :=
  match a with
  | Some s => if truthy s then s else b
  | None => b
  end.

(** [a || b] where both sides may be undefined. *)
Definition or_opt (a b : option string) : option string :=
  match a with
  | Some s => if truthy s then Some s else b
  | None => b
  end.

(** [a ?? b] *)
Definition nullish {A : Type} (a : option A) (b : A) : A :=
  match a with Some x => x | None => b end.

(** [s.slice(0, n)] for a non-negative [n]. *)
Definition slice0 (n : nat) (s : string) : string := substring 0 n s.

(** [s.slice(n)] for a non-negative [n]. *)
Fixpoint slice_from (n : nat) (s : string) : string :=
  match n, s with
  | O, _ => s
  | S _, EmptyString => EmptyString
  | S k, String _ rest => slice_from k rest
  end.

(** [s.startsWith(p)] *)
Definition startsWith (p s : string) : bool := String.prefix p s.

(** JavaScript white space and line terminators in the ASCII range. *)
Definition is_space (c : ascii) : bool :=
  let n := nat_of_ascii c in
  (n =? 32)%nat || (n =? 9)%nat || (n =? 10)%nat
  || (n =? 11)%nat || (n =? 12)%nat || (n =? 13)%nat.

(** Truthiness of [s.trim()]: some character is not white space. *)
Fixpoint trim_truthy (s : string) : bool :=
  match s with
  | EmptyString => false
  | String c rest => if is_space c then trim_truthy rest else true
  end.

(** [s.split('\n')], with the current line accumulated in [cur]. *)
Fixpoint split_go (cur : string) (s : string) : list string :=
  match s with
  | EmptyString => [cur]
  | String c rest =>
      if (nat_of_ascii c =? 10)%nat
      then cur :: split_go EmptyString rest
      else split_go (cur ++ String c EmptyString) rest
  end.
Definition split_newline (s : string) : list string := split_go EmptyString s.

(** [xs.join(sep)] *)
Fixpoint join (sep : string) (xs : list string) : string :=
  match xs with
  | [] => EmptyString
  | [x] => x
  | x :: rest => x ++ sep ++ join sep rest
  end.

(** Property access [v.k]: [undefined] for a missing key.  Keys of an
    object literal are distinct, so the first binding is the binding. *)
Fixpoint lookup_field (k : string) (fields : list (string * jsval)) : jsval :=
  match fields with
  | [] => JUndef
  | (k', v) :: rest => if String.eqb k k' then v else lookup_field k rest
  end.

Definition get (k : string) (v : jsval) : jsval :=
  match v with
  | JObj fields => lookup_field k fields
  | _ => JUndef
  end.

(** An object carries field [k] when reading it gives a value. *)
Definition carries (k : string) (v : jsval) : Prop := get k v <> JUndef.

Definition of_opt_string (o : option string) : jsval :=
  match o with Some s => JStr s | None => JUndef end.

Definition of_nat (n : nat) : jsval := JNum (inject_Z (Z.of_nat n)).
Definition of_Z (z : Z) : jsval := JNum (inject_Z z).

(** [Number.isInteger(q)] *)
Definition is_integer (q : Q) : bool :=
  (Qnum q mod Zpos (Qden q) =? 0)%Z.

(** The integer a number denotes, when [is_integer] holds. *)
Definition to_Z (q : Q) : Z := (Qnum q / Zpos (Qden q))%Z.

End Js.
Import Js.

(* ===================================================================== *)
(** ** The fragment of zod the schemas are written in                    *)
(* ===================================================================== *)

Module Zod.

(** A schema is its [safeParse]: [None] when the value has issues. *)
Definition schema (T : Type) : Type := jsval -> option T.

Definition string_ : schema string :=
  fun v => match v with JStr s => Some s | _ => None end.

(** [.min(n)] on a string schema *)
Definition min_length (n : nat) (p : schema string) : schema string :=
  fun v => s ← p v; if (n <=? str_length s)%nat then Some s else None.

(** [.url()], given the platform's URL parser *)
Definition url (valid : string -> bool) (p : schema string) : schema string :=
  fun v => s ← p v; if valid s then Some s else None.

Definition boolean : schema bool :=
  fun v => match v with JBool b => Some b | _ => None end.

Definition number : schema Q :=
  fun v => match v with JNum q => Some q | _ => None end.

(** [.int()] *)
Definition int (p : schema Q) : schema Z :=
  fun v => q ← p v; if is_integer q then Some (to_Z q) else None.

(** [.min(lo)] and [.max(hi)] on an integer schema *)
Definition min (lo : Z) (p : schema Z) : schema Z :=
  fun v => z ← p v; if (lo <=? z)%Z then Some z else None.
Definition max (hi : Z) (p : schema Z) : schema Z :=
  fun v => z ← p v; if (z <=? hi)%Z then Some z else None.

(** [.default(d)] *)
Definition default {T : Type} (d : T) (p : schema T) : schema T :=
  fun v => match v with JUndef => Some d | _ => p v end.

(** [.optional()] *)
Definition optional {T : Type} (p : schema T) : schema (option T) :=
  fun v => match v with JUndef => Some None | _ => Some <$> p v end.

(** [.nullable()] *)
Definition nullable {T : Type} (p : schema T) : schema (option T) :=
  fun v => match v with JNull => Some None | _ => Some <$> p v end.

(** [z.enum([...])], each literal paired with the constructor it denotes *)
Fixpoint enum_lookup {T : Type} (cases : list (string * T)) (s : string) : option T :=
  match cases with
  | [] => None
  | (k, t) :: rest => if String.eqb s k then Some t else enum_lookup rest s
  end.
Definition enum {T : Type} (cases : list (string * T)) : schema T :=
  fun v => s ← string_ v; enum_lookup cases s.

(** [z.array(p)] *)
Definition array {T : Type} (p : schema T) : schema (list T) :=
  fun v => match v with JArr xs => mapM p xs | _ => None end.

(** [z.record(z.any())] *)
Definition record_any : schema (list (string * jsval)) :=
  fun v => match v with JObj fields => Some fields | _ => None end.

(** [z.object({...})] starts by requiring an object; the fields of the
    shape are then read by key, a missing key reading as [undefined], and
    keys outside the shape are dropped. *)
Definition object_ : schema (list (string * jsval)) :=
  fun v => match v with JObj fields => Some fields | _ => None end.

Definition field {T : Type} (k : string) (p : schema T)
    (fields : list (string * jsval)) : option T :=
  p (lookup_field k fields).

End Zod.

(* ===================================================================== *)
(** ** Structured output: [scoutResponseSchema]                          *)
(* ===================================================================== *)

Inductive TaskStatus : Type := completed | partial | not_found | insufficient_data.
Inductive Confidence : Type := high | medium | low.

Record Source : Type := {
  src_title : string;
  src_url : string;
  src_publishedDate : option string
}.

Record Finding : Type := {
  name : string;
  type : string;
  launchDate : option string;
  details : list (string * jsval);
  confidence : Confidence;
  sources : list Source
}.

Record StructuredResult : Type := {
  taskCompleted : bool;
  taskStatus : TaskStatus;
  message : string;
  findings : list Finding;
  searchStrategies : list string;
  nextSteps : option string
}.

Definition sourceSchema : Zod.schema Source := fun v =>
  o ← Zod.object_ v;
  t ← Zod.field "title" Zod.string_ o;
  u ← Zod.field "url" Zod.string_ o;
  d ← Zod.field "publishedDate" (Zod.nullable Zod.string_) o;
  Some {| src_title := t; src_url := u; src_publishedDate := d |}.

Definition findingSchema : Zod.schema Finding := fun v =>
  o ← Zod.object_ v;
  n ← Zod.field "name" Zod.string_ o;
  t ← Zod.field "type" Zod.string_ o;
  l ← Zod.field "launchDate" (Zod.nullable Zod.string_) o;
  d ← Zod.field "details" Zod.record_any o;
  c ← Zod.field "confidence"
        (Zod.enum [("high", high); ("medium", medium); ("low", low)]) o;
  s ← Zod.field "sources" (Zod.array sourceSchema) o;
  Some {| name := n; type := t; launchDate := l; details := d;
          confidence := c; sources := s |}.

(** The schema handed to [Output.object]: six fields, each checked on its
    own.  The rules tying [findings] to [taskCompleted] and [taskStatus]
    appear in the [describe] texts only. *)
Definition scoutResponseSchema : Zod.schema StructuredResult := fun v =>
  o ← Zod.object_ v;
  tc ← Zod.field "taskCompleted" Zod.boolean o;
  ts ← Zod.field "taskStatus"
         (Zod.enum [("completed", completed); ("partial", partial);
                    ("not_found", not_found);
                    ("insufficient_data", insufficient_data)]) o;
  m ← Zod.field "message" Zod.string_ o;
  f ← Zod.field "findings" (Zod.array findingSchema) o;
  ss ← Zod.field "searchStrategies" (Zod.array Zod.string_) o;
  ns ← Zod.field "nextSteps" (Zod.nullable Zod.string_) o;
  Some {| taskCompleted := tc; taskStatus := ts; message := m; findings := f;
          searchStrategies := ss; nextSteps := ns |}.

(** The object a typed result is written as (what the model emits and the
    client renders). *)
Module Encode.

Definition nullable_string (o : option string) : jsval :=
  match o with Some s => JStr s | None => JNull end.

Definition status (s : TaskStatus) : jsval :=
  JStr match s with
       | completed => "completed"
       | partial => "partial"
       | not_found => "not_found"
       | insufficient_data => "insufficient_data"
       end.

Definition confidence_ (c : Confidence) : jsval :=
  JStr match c with high => "high" | medium => "medium" | low => "low" end.

Definition source (s : Source) : jsval :=
  JObj [("title", JStr (src_title s)); ("url", JStr (src_url s));
        ("publishedDate", nullable_string (src_publishedDate s))].

Definition finding (f : Finding) : jsval :=
  JObj [("name", JStr (name f)); ("type", JStr (type f));
        ("launchDate", nullable_string (launchDate f));
        ("details", JObj (details f));
        ("confidence", confidence_ (confidence f));
        ("sources", JArr (source <$> sources f))].

Definition result (r : StructuredResult) : jsval :=
  JObj [("taskCompleted", JBool (taskCompleted r));
        ("taskStatus", status (taskStatus r));
        ("message", JStr (message r));
        ("findings", JArr (finding <$> findings r));
        ("searchStrategies", JArr (JStr <$> searchStrategies r));
        ("nextSteps", nullable_string (nextSteps r))].

End Encode.

(** The cross-field rules the field descriptions ask the model to keep. *)
Definition findings_iff_completed (r : StructuredResult) : Prop :=
  taskCompleted r = true <-> (1 <= List.length (findings r))%nat.
Definition status_iff_completed (r : StructuredResult) : Prop :=
  taskStatus r = completed <-> taskCompleted r = true.
Definition other_status_no_findings (r : StructuredResult) : Prop :=
  taskStatus r <> completed -> findings r = [].
Definition consistent (r : StructuredResult) : Prop :=
  findings_iff_completed r /\ status_iff_completed r /\ other_status_no_findings r.

(* ===================================================================== *)
(** ** The Firecrawl adapter, the event trace and the effect monad        *)
(* ===================================================================== *)

Inductive Category : Type := CatGithub | CatResearch | CatPdf.
Inductive SourceType : Type := SrcWeb | SrcNews | SrcImages.

(** [type FirecrawlScrapeResponse] *)
Record ScrapeMetadata : Type := { sm_title : option string }.
Record FirecrawlScrapeResponse : Type := {
  fsr_url : option string;
  fsr_markdown : option string;
  fsr_content : option string;
  fsr_metadata : option ScrapeMetadata
}.

(** [type FirecrawlSearchResultItem], with the [category] the route reads
    through a cast. *)
Record ItemMetadata : Type := {
  im_title : option string;
  im_publishedTime : option string
}.
Record FirecrawlSearchResultItem : Type := {
  item_url : string;
  item_title : option string;
  item_markdown : option string;
  item_description : option string;
  item_metadata : option ItemMetadata;
  item_category : option string
}.

(** What [firecrawl.search] resolves to: one optional list per source
    type.  Only the [web] entries have a shape the route relies on. *)
Record SearchResponse : Type := {
  web : option (list FirecrawlSearchResultItem);
  news : option (list jsval);
  images : option (list jsval)
}.

(** The [searchOptions] object: optional keys are absent until assigned. *)
Record SearchOptions : Type := {
  opt_limit : Z;
  opt_formats : list string;
  opt_tbs : option string;
  opt_location : option string;
  opt_categories : option (list Category);
  opt_sources : option (list SourceType)
}.

(** A [FirecrawlApp] instance: each method resolves or rejects. *)
Record FirecrawlApp : Type := {
  scrape : string -> list string -> Outcome FirecrawlScrapeResponse;
  search : string -> SearchOptions -> Outcome SearchResponse
}.

(** What [prepareStep] returns: possibly a [system] setting for the step. *)
Record PrepareStepResult : Type := { ps_system : option string }.

Record ToolCall : Type := {
  toolName : string;
  callId : string;
  input : jsval
}.

(** The outcome of one dispatched call, as attached to the step. *)
Inductive ToolResultPart : Type :=
| ToolOutput (call : ToolCall) (output : jsval)
| ToolError (call : ToolCall) (error : Thrown)
| InvalidToolInput (call : ToolCall)
| NoSuchTool (call : ToolCall).

Inductive Message : Type :=
| UIMessage (m : jsval)
| AssistantToolCalls (calls : list ToolCall)
| ToolResults (parts : list ToolResultPart).

(** What the model capability is handed at one step. *)
Record ModelInput : Type := {
  mi_system : string;
  mi_messages : list Message;
  mi_tools : list string;
  mi_output : Zod.schema StructuredResult;
  mi_prepared : PrepareStepResult
}.

Inductive Event : Type :=
| ModelCall (input : ModelInput)
| FirecrawlScrape (url : string) (formats : list string)
| FirecrawlSearch (query : string) (options : SearchOptions)
| ConsoleLog (args : list jsval)
| ConsoleError (args : list jsval).

Definition is_model_call (e : Event) : bool :=
  match e with ModelCall _ => true | _ => false end.
Definition is_tool_call (e : Event) : bool :=
  match e with FirecrawlScrape _ _ | FirecrawlSearch _ _ => true | _ => false end.

(** A computation: how it ends, and the calls it made on the way. *)
Definition Eff (A : Type) : Type := (Outcome A * list Event)%type.

Module EffM.

Definition ret {A : Type} (a : A) : Eff A := (Return a, []).

Definition bind {A B : Type} (m : Eff A) (k : A -> Eff B) : Eff B :=
  match m with
  | (Return a, t) => let '(r, t') := k a in (r, (t ++ t')%list)
  | (Throw e, t) => (Throw e, t)
  end.

(** [throw e] and [await p] for a promise with a known outcome *)
Definition lift {A : Type} (o : Outcome A) : Eff A := (o, []).

Definition emit (e : Event) : Eff unit := (Return tt, [e]).

(** [try { body } catch (error) { handler }] *)
Definition try_catch {A : Type} (body : Eff A) (handler : Thrown -> Eff A) : Eff A :=
  match body with
  | (Return a, t) => (Return a, t)
  | (Throw e, t) => let '(r, t') := handler e in (r, (t ++ t')%list)
  end.

(** Sequential [for ... of] over a list, collecting the results. *)
Fixpoint for_each {A B : Type} (f : A -> Eff B) (xs : list A) : Eff (list B) :=
  match xs with
  | [] => ret []
  | x :: rest => bind (f x) (fun y => bind (for_each f rest) (fun ys => ret (y :: ys)))
  end.

Definition outcome {A : Type} (m : Eff A) : Outcome A := fst m.
Definition trace {A : Type} (m : Eff A) : list Event := snd m.

End EffM.

Notation "'do' x <- m ; k" := (EffM.bind m (fun x => k))
  (at level 10, x name, m at level 100, k at level 200).
Notation "m ;;; k" := (EffM.bind m (fun _ => k))
  (at level 100, k at level 200, right associativity).

(** [error instanceof Error ? error.message : "Unknown Firecrawl error."] *)
Definition error_message (error : Thrown) : string :=
  match error with
  | ErrorObject msg => msg
  | ThrownValue _ => "Unknown Firecrawl error."
  end.

(* ===================================================================== *)
(** ** [scrapeWebsiteTool]                                               *)
(* ===================================================================== *)

Module scrapeWebsiteTool.

(** [z.object({ url: z.string().url() })] *)
Definition inputSchema (URL_valid : string -> bool) : Zod.schema string := fun v =>
  o ← Zod.object_ v;
  Zod.field "url" (Zod.url URL_valid Zod.string_) o.

(** [await firecrawl.scrape(url, { formats: ["markdown"] })] *)
Definition call_scrape (app : FirecrawlApp) (url : string) (formats : list string)
    : Eff FirecrawlScrapeResponse :=
  EffM.emit (FirecrawlScrape url formats) ;;; EffM.lift (scrape app url formats).

Definition execute (firecrawl : option FirecrawlApp) (url : string) : Eff jsval :=
  match firecrawl with
  | None =>
      EffM.ret (JObj [("url", JStr url);
                      ("title", JStr "Firecrawl key missing");
                      ("content", JStr ("FIRECRAWL_API_KEY is not configured. Unable to scrape "
                                        ++ url ++ "."))])
  | Some app =>
      EffM.try_catch
        (do data <- call_scrape app url ["markdown"];
         let markdown :=
           nullish (match fsr_markdown data with
                    | Some m => Some m
                    | None => fsr_content data
                    end) "" in
         let title := nullish (fsr_metadata data ≫= sm_title) "" in
         let heading := if truthy title then title else url in
         EffM.ret (JObj [("url", JStr url);
                         ("title", JStr heading);
                         ("content", JStr ("# " ++ heading ++ newline ++ newline ++ markdown))]))
        (fun error =>
           let message := error_message error in
           EffM.ret (JObj [("url", JStr url);
                           ("title", JStr "Firecrawl scrape failed");
                           ("content", JStr ("Scrape error: " ++ message))]))
  end.

End scrapeWebsiteTool.

(* ===================================================================== *)
(** ** [searchWebTool]                                                   *)
(* ===================================================================== *)

Module searchWebTool.

Record Input : Type := {
  query : string;
  limit : Z;
  tbs : option string;
  location : option string;
  categories : option (list Category);
  sources : option (list SourceType)
}.

Definition inputSchema : Zod.schema Input := fun v =>
  o ← Zod.object_ v;
  q ← Zod.field "query" (Zod.min_length 3 Zod.string_) o;
  l ← Zod.field "limit"
        (Zod.default 5%Z (Zod.max 10 (Zod.min 1 (Zod.int Zod.number)))) o;
  t ← Zod.field "tbs" (Zod.optional Zod.string_) o;
  loc ← Zod.field "location" (Zod.optional Zod.string_) o;
  c ← Zod.field "categories"
        (Zod.optional
           (Zod.array (Zod.enum [("github", CatGithub); ("research", CatResearch);
                                 ("pdf", CatPdf)]))) o;
  s ← Zod.field "sources"
        (Zod.optional
           (Zod.array (Zod.enum [("web", SrcWeb); ("news", SrcNews);
                                 ("images", SrcImages)]))) o;
  Some {| query := q; limit := l; tbs := t; location := loc;
          categories := c; sources := s |}.

Definition category_js (c : Category) : jsval :=
  JStr match c with
       | CatGithub => "github" | CatResearch => "research" | CatPdf => "pdf"
       end.
Definition source_js (s : SourceType) : jsval :=
  JStr match s with SrcWeb => "web" | SrcNews => "news" | SrcImages => "images" end.

Definition of_opt_list {A : Type} (f : A -> jsval) (o : option (list A)) : jsval :=
  match o with Some xs => JArr (f <$> xs) | None => JUndef end.

(** [{ tbs, location, categories, sources }], the parameters as received *)
Definition raw_parameters (i : Input) : jsval :=
  JObj [("tbs", of_opt_string (tbs i));
        ("location", of_opt_string (location i));
        ("categories", of_opt_list category_js (categories i));
        ("sources", of_opt_list source_js (sources i))].

(** An array is added to the options only when given and non-empty. *)
Definition non_empty {A : Type} (o : option (list A)) : option (list A) :=
  match o with
  | Some (x :: xs) => Some (x :: xs)
  | _ => None
  end.

Definition build_options (i : Input) : SearchOptions :=
  {| opt_limit := limit i;
     opt_formats := ["markdown"];
     opt_tbs := if truthy_opt (tbs i) then tbs i else None;
     opt_location := if truthy_opt (location i) then location i else None;
     opt_categories := non_empty (categories i);
     opt_sources := non_empty (sources i) |}.

(** One entry of [results] *)
Record Result : Type := {
  title : string;
  url : string;
  snippet : string;
  publishedTime : option string;
  category : option string
}.

Definition to_result (item : FirecrawlSearchResultItem) : Result :=
  {| title := or_else (or_opt (or_opt (item_metadata item ≫= im_title) (item_title item))
                              (Some (item_url item)))
                      "Untitled";
     url := item_url item;
     snippet := or_else (or_opt (slice0 400 <$> item_markdown item)
                                (item_description item))
                        "";
     publishedTime := item_metadata item ≫= im_publishedTime;
     category := item_category item |}.

Definition result_js (r : Result) : jsval :=
  JObj [("title", JStr (title r));
        ("url", JStr (url r));
        ("snippet", JStr (snippet r));
        ("publishedTime", of_opt_string (publishedTime r));
        ("category", of_opt_string (category r))].

(** [response.web || []] *)
Definition webResults (response : SearchResponse) : list FirecrawlSearchResultItem :=
  nullish (web response) [].

Definition results_of (response : SearchResponse) : list Result :=
  to_result <$> webResults response.

Definition summary_line (index : nat) (result : Result) : string :=
  let title_ :=
    nullish (match Some (title result) with
             | Some t => Some t
             | None => Some (url result)
             end)
            ("Result " ++ pretty (index + 1)%nat) in
  let url_ := if truthy (url result) then " (" ++ url result ++ ")" else "" in
  let snippet_ :=
    if truthy (snippet result) then newline ++ "> " ++ snippet result else "" in
  let category_ :=
    match category result with
    | Some c => if truthy c then " [" ++ c ++ "]" else ""
    | None => ""
    end in
  let published :=
    match publishedTime result with
    | Some p => if truthy p then " (Published: " ++ p ++ ")" else ""
    | None => ""
    end in
  "- " ++ title_ ++ category_ ++ published ++ url_ ++ snippet_.

Definition heading (query : string) : string :=
  "### Search results for " ++ dquote ++ query ++ dquote ++ newline.

Definition no_results_notice : string := "- No results found.".

Definition summary_of (query : string) (results : list Result) : string :=
  let summaryLines := imap summary_line results in
  match summaryLines with
  | [] => heading query ++ no_results_notice
  | _ :: _ => heading query ++ join newline summaryLines
  end.

Definition no_results_message : string := "No results returned from Firecrawl search".

(** The object returned when the search resolved. *)
Definition success (i : Input) (response : SearchResponse) : jsval :=
  let results := results_of response in
  JObj [("query", JStr (query i));
        ("limit", of_Z (limit i));
        ("parameters",
         JObj [("tbs", JStr (or_else (tbs i) "none"));
               ("location", JStr (or_else (location i) "global"));
               ("categories", JArr (category_js <$> nullish (categories i) []));
               ("sources", JArr (source_js <$> nullish (sources i) [SrcWeb]))]);
        ("count", of_nat (List.length results));
        ("results", JArr (result_js <$> results));
        ("content", JStr (summary_of (query i) results));
        ("message",
         if (List.length results =? 0)%nat then JStr no_results_message else JUndef)].

Definition not_configured_note : string :=
  "FIRECRAWL_API_KEY is not configured. Unable to perform search.".

(** [await firecrawl.search(query, searchOptions)] *)
Definition call_search (app : FirecrawlApp) (query : string) (options : SearchOptions)
    : Eff SearchResponse :=
  EffM.emit (FirecrawlSearch query options) ;;; EffM.lift (search app query options).

Definition execute (firecrawl : option FirecrawlApp) (i : Input) : Eff jsval :=
  match firecrawl with
  | None =>
      EffM.ret (JObj [("query", JStr (query i));
                      ("limit", of_Z (limit i));
                      ("parameters", raw_parameters i);
                      ("results", JArr []);
                      ("note", JStr not_configured_note)])
  | Some app =>
      EffM.try_catch
        (let searchOptions := build_options i in
         do response <- call_search app (query i) searchOptions;
         EffM.ret (success i response))
        (fun error =>
           let message := error_message error in
           EffM.ret (JObj [("query", JStr (query i));
                           ("limit", of_Z (limit i));
                           ("parameters", raw_parameters i);
                           ("results", JArr []);
                           ("error", JStr message)]))
  end.

End searchWebTool.

(* ===================================================================== *)
(** ** The tool registry: [tools: { scrapeWebsite, searchWeb }]          *)
(* ===================================================================== *)

Definition tool_catalog : list string := ["scrapeWebsite"; "searchWeb"].

(** What the registry attaches to the step for a finished [execute]: its
    output, or the error part when it threw. *)
Definition settle (call : ToolCall) (m : Eff jsval) : ToolResultPart * list Event :=
  match m with
  | (Return out, t) => (ToolOutput call out, t)
  | (Throw e, t) => (ToolError call e, t)
  end.

(** A call is looked up by name, its input is checked against the tool's
    [inputSchema], and only a valid input reaches [execute]. *)
Definition dispatch (URL_valid : string -> bool) (firecrawl : option FirecrawlApp)
    (call : ToolCall) : ToolResultPart * list Event :=
  if String.eqb (toolName call) "scrapeWebsite" then
    match scrapeWebsiteTool.inputSchema URL_valid (input call) with
    | None => (InvalidToolInput call, [])
    | Some url => settle call (scrapeWebsiteTool.execute firecrawl url)
    end
  else if String.eqb (toolName call) "searchWeb" then
    match searchWebTool.inputSchema (input call) with
    | None => (InvalidToolInput call, [])
    | Some i => settle call (searchWebTool.execute firecrawl i)
    end
  else (NoSuchTool call, []).

(** All calls of one step, in order; their results stay with the step. *)
Fixpoint dispatch_all (URL_valid : string -> bool) (firecrawl : option FirecrawlApp)
    (calls : list ToolCall) : list ToolResultPart * list Event :=
  match calls with
  | [] => ([], [])
  | call :: rest =>
      let '(part, t) := dispatch URL_valid firecrawl call in
      let '(parts, t') := dispatch_all URL_valid firecrawl rest in
      (part :: parts, (t ++ t')%list)
  end.

(* ===================================================================== *)
(** ** [chatAgent]: step ceiling, step preparation, and the loop         *)
(* ===================================================================== *)

Module chatAgent.

(** The step ceiling of [stopWhen: stepCountIs(10)]. *)
Definition max_steps : nat := 10.

(** [stepCountIs(10)]: met when the number of recorded steps is 10. *)
Definition stopWhen (stepCount : nat) : bool := (stepCount =? 10)%nat.

(** [prepareStep: async ({ stepNumber }) => ...].  [stepNumber] counts the
    steps already recorded, so the first step has [stepNumber = 0]; the
    directive itself prints [stepNumber + 1] as the step's position. *)
Definition prepareStep (stepNumber : nat) : PrepareStepResult :=
  if (stepNumber =? 9)%nat then
    {| ps_system :=
         Some ("You're approaching your step limit (step "
               ++ pretty (stepNumber + 1)%nat
               ++ " of 10). Consider wrapping up your search and preparing your response.") |}
  else {| ps_system := None |}.

(** What the model capability answers at one step. *)
Inductive ModelResponse : Type :=
| RequestTools (calls : list ToolCall)
| FinalObject (v : jsval)
| PlainText (text : string).

(** The model capability: an answer, or a failure of the capability. *)
Definition ModelCapability : Type := ModelInput -> Outcome ModelResponse.

Inductive LoopState : Type :=
| RUNNING (step : nat)
| AWAITING_TOOL_RESULTS (step : nat) (calls : list ToolCall)
| FINISHED (result : StructuredResult)
| ABORTED (reason : string).

Inductive Final : Type :=
| Finished (result : StructuredResult)
| Aborted (reason : string).

Definition final_state (f : Final) : LoopState :=
  match f with Finished r => FINISHED r | Aborted reason => ABORTED reason end.

(** The two points the loop's description leaves to the implementer: what
    a final object that fails validation ends in, and what a plain-text
    answer ends in. *)
Record OpenChoices : Type := {
  on_violation : jsval -> Final;
  on_text : string -> Final
}.

Record Config : Type := {
  state : LoopState;
  history : list Message;
  events : list Event
}.

Definition terminal (s : LoopState) : bool :=
  match s with FINISHED _ | ABORTED _ => true | _ => false end.

Section Loop.

Variable system_prompt : string.
Variable model : ModelCapability.
Variable choices : OpenChoices.
Variable URL_valid : string -> bool.
Variable firecrawl : option FirecrawlApp.

(** What step [n] (counted from 1) hands to the model. *)
Definition model_input (n : nat) (h : list Message) : ModelInput :=
  {| mi_system := system_prompt;
     mi_messages := h;
     mi_tools := tool_catalog;
     mi_output := scoutResponseSchema;
     mi_prepared := prepareStep (n - 1) |}.

(** Modelled from the spec: the loop driver itself (the [Agent] class that
    [chatAgent] instantiates) is not among the sources.  States and
    transitions are those of the AgentLoop state machine: [RUNNING n]
    invokes the model; tool requests go through [AWAITING_TOOL_RESULTS],
    are dispatched, and their results are appended before the next step; a
    final object is validated against the contract; the step ceiling ends
    the loop in [ABORTED "step_limit_exceeded"]; a failure of the model
    capability ends it in [ABORTED "model_error"].  [stopWhen],
    [prepareStep], the tools and the contract are the route's. *)
Definition step (cfg : Config) : Config :=
  match state cfg with
  | RUNNING n =>
      let input := model_input n (history cfg) in
      let seen := (events cfg ++ [ModelCall input])%list in
      match model input with
      | Throw _ =>
          {| state := ABORTED "model_error"; history := history cfg; events := seen |}
      | Return (RequestTools calls) =>
          {| state := AWAITING_TOOL_RESULTS n calls;
             history := (history cfg ++ [AssistantToolCalls calls])%list;
             events := seen |}
      | Return (FinalObject v) =>
          match scoutResponseSchema v with
          | Some r => {| state := FINISHED r; history := history cfg; events := seen |}
          | None =>
              {| state := final_state (on_violation choices v);
                 history := history cfg; events := seen |}
          end
      | Return (PlainText text) =>
          {| state := final_state (on_text choices text);
             history := history cfg; events := seen |}
      end
  | AWAITING_TOOL_RESULTS n calls =>
      let '(parts, t) := dispatch_all URL_valid firecrawl calls in
      {| state := if stopWhen n then ABORTED "step_limit_exceeded" else RUNNING (n + 1);
         history := (history cfg ++ [ToolResults parts])%list;
         events := (events cfg ++ t)%list |}
  | FINISHED _ | ABORTED _ => cfg
  end.

Fixpoint run (fuel : nat) (cfg : Config) : Config :=
  match fuel with
  | O => cfg
  | S k => run k (step cfg)
  end.

Definition init (messages : list jsval) : Config :=
  {| state := RUNNING 1; history := UIMessage <$> messages; events := [] |}.

(** Number of model invocations a configuration has seen. *)
Definition model_calls (cfg : Config) : nat :=
  List.length (filter (fun e => is_model_call e = true) (events cfg)).

(** Two transitions per step and [max_steps] steps at most. *)
Definition respond (messages : list jsval) : Config :=
  run (2 * max_steps) (init messages).

End Loop.

End chatAgent.

(* ===================================================================== *)
(** ** The request handler [POST] and the tee'd stream                   *)
(* ===================================================================== *)

(** A chunk of the response body. *)
Definition Chunk : Type := list Byte.byte.

Record Env : Type := {
  OPENAI_API_KEY : option string;
  FIRECRAWL_API_KEY : option string
}.

Record Request : Type := { body_text : string }.

Inductive HttpResponse : Type :=
| JsonResponse (status : nat) (body : jsval)
| StreamResponse (headers : list (string * string)) (body : list Chunk).

(** The platform and library functions the route calls. *)
Record Host : Type := {
  URL_valid : string -> bool;
  (** [JSON.parse]; [None] when it throws *)
  JSON_parse : string -> option jsval;
  (** [JSON.stringify(v, null, 2)] *)
  JSON_stringify : jsval -> jsval;
  (** [new FirecrawlApp({ apiKey })] *)
  new_FirecrawlApp : string -> FirecrawlApp;
  validateUIMessages : jsval -> Outcome (list jsval);
  (** [openai("gpt-5-mini")] *)
  model : chatAgent.ModelCapability;
  system_prompt : string;
  choices : chatAgent.OpenChoices;
  (** the body and headers of the response the agent produces for a run *)
  ui_stream : chatAgent.Config -> list Chunk;
  ui_headers : chatAgent.Config -> list (string * string);
  (** [decoder.decode(value, { stream: true })] *)
  TextDecoder_decode : Chunk -> Outcome string;
  (** whether a write to the console goes through, and what it throws
      when it does not *)
  console_ok : list jsval -> bool;
  console_failure : list jsval -> Thrown
}.

(** [const firecrawl = process.env.FIRECRAWL_API_KEY ? new FirecrawlApp(...) : null] *)
Definition firecrawl (host : Host) (env : Env) : option FirecrawlApp :=
  match FIRECRAWL_API_KEY env with
  | Some key => if truthy key then Some (new_FirecrawlApp host key) else None
  | None => None
  end.

Definition console_log (host : Host) (args : list jsval) : Eff unit :=
  if console_ok host args then EffM.emit (ConsoleLog args)
  else EffM.lift (Throw (console_failure host args)).

Definition console_error (host : Host) (args : list jsval) : Eff unit :=
  if console_ok host args then EffM.emit (ConsoleError args)
  else EffM.lift (Throw (console_failure host args)).

(** Property access that throws on [null] and [undefined]. *)
Definition prop (k : string) (v : jsval) : Outcome jsval :=
  match v with
  | JNull | JUndef => Throw (ErrorObject ("Cannot read properties of null (reading '" ++ k ++ "')"))
  | _ => Return (get k v)
  end.

Definition thrown_js (e : Thrown) : jsval :=
  match e with
  | ErrorObject msg => JObj [("message", JStr msg)]
  | ThrownValue v => v
  end.

(** [response.body.tee()] *)
Definition tee {A : Type} (source : list A) : list A * list A := (source, source).

Module Logging.

Definition on_event (host : Host) (data : jsval) : Eff unit :=
  do ty <- EffM.lift (prop "type" data);
  match ty with
  | JStr "tool-call" =>
      console_log host [JStr (newline ++ "🔧 Tool Call:")] ;;;
      console_log host [JStr "  Tool:"; get "toolName" data] ;;;
      console_log host [JStr "  Args:"; JSON_stringify host (get "args" data)]
  | JStr "tool-result" =>
      console_log host [JStr (newline ++ "✅ Tool Result:")] ;;;
      console_log host [JStr "  Tool:"; get "toolName" data] ;;;
      console_log host [JStr "  Result:"; JSON_stringify host (get "result" data)]
  | JStr "finish" =>
      console_log host [JStr (newline ++ "=== Agent Finished ===")] ;;;
      console_log host [JStr "Reason:"; get "finishReason" data] ;;;
      console_log host [JStr ("======================" ++ newline)]
  | _ => EffM.ret tt
  end.

(** The body of [for (const line of lines)]: anything thrown while
    handling a line is dropped. *)
Definition on_line (host : Host) (line : string) : Eff unit :=
  EffM.try_catch
    (if startsWith "0:" line then
       match JSON_parse host (slice_from 2 line) with
       | None => EffM.lift (Throw (ErrorObject "Unexpected token"))
       | Some data => on_event host data
       end
     else EffM.ret tt)
    (fun _ => EffM.ret tt).

Definition on_chunk (host : Host) (value : Chunk) : Eff unit :=
  do chunk <- EffM.lift (TextDecoder_decode host value);
  let lines := List.filter trim_truthy (split_newline chunk) in
  EffM.for_each (on_line host) lines ;;; EffM.ret tt.

(** The background reader of [logStream]. *)
Definition run (host : Host) (logStream : list Chunk) : Eff unit :=
  EffM.try_catch
    (EffM.for_each (on_chunk host) logStream ;;; EffM.ret tt)
    (fun err => console_error host [JStr "Logging error:"; thrown_js err]).

End Logging.

(** A task started and not awaited: its calls happen, its outcome is not
    looked at. *)
Definition background (task : Eff unit) : Eff unit := (Return tt, EffM.trace task).

(** [validatedMessages.filter(m => m.role === 'user').pop()] *)
Definition is_user (m : jsval) : bool :=
  match get "role" m with
  | JStr r => String.eqb r "user"
  | _ => false
  end.
Definition last_user_message (messages : list jsval) : option jsval :=
  last (List.filter is_user messages).

Definition NextResponse_json (body : jsval) (status : nat) : HttpResponse :=
  JsonResponse status body.

(** The handler, with the background reader of [logStream] as a parameter:
    [POST] below is the handler with the reader the route starts. *)
Definition handle (logger : list Chunk -> Eff unit)
    (host : Host) (env : Env) (req : Request) : Eff HttpResponse :=
  if negb (truthy_opt (OPENAI_API_KEY env)) then
    EffM.ret (NextResponse_json
                (JObj [("error", JStr "Set OPENAI_API_KEY to enable the chat.")]) 400)
  else
    match JSON_parse host (body_text req) with
    | None =>
        EffM.ret (NextResponse_json (JObj [("error", JStr "Invalid JSON payload.")]) 400)
    | Some body =>
        do given <- EffM.lift (prop "messages" body);
        let messages := match given with JUndef | JNull => JArr [] | _ => given end in
        do validatedMessages <- EffM.lift (validateUIMessages host messages);
        console_log host [JStr (newline ++ "=== Starting Agent Execution ===")] ;;;
        console_log host [JStr "Message count:"; of_nat (List.length validatedMessages)] ;;;
        match last_user_message validatedMessages with
        | Some lastUserMessage =>
            console_log host [JStr "Last user message:"; JSON_stringify host lastUserMessage]
        | None => EffM.ret tt
        end ;;;
        console_log host [JStr ("================================" ++ newline)] ;;;
        let response :=
          chatAgent.respond (system_prompt host) (model host) (choices host)
            (URL_valid host) (firecrawl host env) validatedMessages in
        (Return tt, chatAgent.events response) ;;;
        let '(logStream, clientStream) := tee (ui_stream host response) in
        background (logger logStream) ;;;
        EffM.ret (StreamResponse (ui_headers host response) clientStream)
    end.

Definition POST (host : Host) (env : Env) (req : Request) : Eff HttpResponse :=
  handle (Logging.run host) host env req.

(* ===================================================================== *)
(** * Properties                                                         *)
(* ===================================================================== *)

(** ** Structured-output validation *)

Section SchemaFacts.

Lemma array_encoded {T : Type} (p : Zod.schema T) (enc : T -> jsval) (xs : list T) :
  (forall x, p (enc x) = Some x) ->
  Zod.array p (JArr (enc <$> xs)) = Some xs.
Proof.
  intros Hp. unfold Zod.array.
  apply mapM_Some_2.
  induction xs as [|x xs IH]; simpl; constructor; auto.
Qed.

Lemma nullable_string_encoded (o : option string) :
  Zod.nullable Zod.string_ (Encode.nullable_string o) = Some o.
Proof. destruct o; reflexivity. Qed.

Lemma sourceSchema_encoded (s : Source) : sourceSchema (Encode.source s) = Some s.
Proof.
  destruct s as [t u d].
  unfold sourceSchema, Encode.source, Zod.field; cbn -[Zod.nullable].
  rewrite nullable_string_encoded. reflexivity.
Qed.

Lemma findingSchema_encoded (f : Finding) : findingSchema (Encode.finding f) = Some f.
Proof.
  destruct f as [n t l d c s].
  unfold findingSchema, Encode.finding, Zod.field; cbn -[Zod.array Zod.nullable].
  rewrite nullable_string_encoded; cbn -[Zod.array Zod.nullable].
  rewrite (array_encoded sourceSchema Encode.source s sourceSchema_encoded).
  destruct c; reflexivity.
Qed.

End SchemaFacts.

(** C1 (as the code has it): validation by [scoutResponseSchema] checks
    the shape of each field and nothing across fields.  Every
    [StructuredResult], whatever its [taskCompleted], [taskStatus] and
    [findings], is accepted when presented as an object, and comes back
    unchanged. *)
Theorem scoutResponseSchema_accepts_every_result (r : StructuredResult) :
  scoutResponseSchema (Encode.result r) = Some r.
Proof.
  destruct r as [tc ts m f ss ns].
  unfold scoutResponseSchema, Encode.result, Zod.field; cbn -[Zod.array Zod.nullable].
  rewrite (array_encoded findingSchema Encode.finding f findingSchema_encoded).
  rewrite (array_encoded Zod.string_ JStr ss (fun x => eq_refl)).
  rewrite nullable_string_encoded.
  destruct ts; reflexivity.
Qed.

(** C1, counterexample: a candidate with [taskCompleted = true] and no
    findings passes validation, although it breaks the rule that
    completion goes with at least one finding. *)
Lemma scoutResponseSchema_accepts_completed_without_findings :
  let candidate :=
    JObj [("taskCompleted", JBool true);
          ("taskStatus", JStr "completed");
          ("message", JStr "done");
          ("findings", JArr []);
          ("searchStrategies", JArr []);
          ("nextSteps", JNull)] in
  exists r,
    scoutResponseSchema candidate = Some r
    /\ taskCompleted r = true
    /\ findings r = []
    /\ ~ consistent r.
Proof.
  simpl. eexists. split; [reflexivity|]. simpl.
  split; [reflexivity|]. split; [reflexivity|].
  unfold consistent, findings_iff_completed; simpl.
  intros [[H _] _]. specialize (H eq_refl). lia.
Qed.

(** ** The tools *)

Section ToolFacts.

Import searchWebTool.

Lemma slice0_length (n : nat) (s : string) : str_length (slice0 n s) <= n.
Proof.
  unfold slice0, str_length. revert s.
  induction n as [|n IH]; intros [|c s]; simpl; try lia.
  specialize (IH s). lia.
Qed.

Lemma slice0_truthy (n : nat) (s : string) :
  0 < n -> truthy (slice0 n s) = truthy s.
Proof. intros Hn. destruct n; [lia|]. destruct s; reflexivity. Qed.

(** What [searchWebTool.execute] comes to once the adapter has answered. *)
Lemma search_execute_resolved (app : FirecrawlApp) (i : Input) (response : SearchResponse) :
  search app (query i) (build_options i) = Return response ->
  execute (Some app) i
  = (Return (success i response), [FirecrawlSearch (query i) (build_options i)]).
Proof.
  intros H. unfold execute, call_search, EffM.try_catch, EffM.bind, EffM.emit, EffM.lift.
  rewrite H. reflexivity.
Qed.

Lemma search_execute_rejected (app : FirecrawlApp) (i : Input) (e : Thrown) :
  search app (query i) (build_options i) = Throw e ->
  execute (Some app) i
  = (Return (JObj [("query", JStr (query i)); ("limit", of_Z (limit i));
                   ("parameters", raw_parameters i); ("results", JArr []);
                   ("error", JStr (error_message e))]),
     [FirecrawlSearch (query i) (build_options i)]).
Proof.
  intros H. unfold execute, call_search, EffM.try_catch, EffM.bind, EffM.emit, EffM.lift.
  rewrite H. reflexivity.
Qed.

Lemma scrape_execute_rejected (app : FirecrawlApp) (u : string) (e : Thrown) :
  scrape app u ["markdown"] = Throw e ->
  scrapeWebsiteTool.execute (Some app) u
  = (Return (JObj [("url", JStr u); ("title", JStr "Firecrawl scrape failed");
                   ("content", JStr ("Scrape error: " ++ error_message e))]),
     [FirecrawlScrape u ["markdown"]]).
Proof.
  intros H.
  unfold scrapeWebsiteTool.execute, scrapeWebsiteTool.call_scrape,
    EffM.try_catch, EffM.bind, EffM.emit, EffM.lift.
  rewrite H. reflexivity.
Qed.

Lemma scrape_execute_returns (firecrawl : option FirecrawlApp) (u : string) :
  exists out, EffM.outcome (scrapeWebsiteTool.execute firecrawl u) = Return out.
Proof.
  destruct firecrawl as [app|]; [|eexists; reflexivity].
  unfold scrapeWebsiteTool.execute, scrapeWebsiteTool.call_scrape,
    EffM.try_catch, EffM.bind, EffM.emit, EffM.lift, EffM.outcome.
  destruct (scrape app u ["markdown"]); eexists; reflexivity.
Qed.

Lemma search_execute_returns (firecrawl : option FirecrawlApp) (i : Input) :
  exists out, EffM.outcome (execute firecrawl i) = Return out.
Proof.
  destruct firecrawl as [app|]; [|eexists; reflexivity].
  destruct (search app (query i) (build_options i)) as [response|e] eqn:H.
  - rewrite (search_execute_resolved _ _ _ H). eexists; reflexivity.
  - rewrite (search_execute_rejected _ _ _ H). eexists; reflexivity.
Qed.

(** A snippet cut from a non-empty [markdown] keeps to 400 characters. *)
Lemma snippet_from_markdown_bounded (item : FirecrawlSearchResultItem) (m : string) :
  item_markdown item = Some m ->
  truthy m = true ->
  str_length (snippet (to_result item)) <= 400.
Proof.
  intros Hm Ht. unfold to_result; cbn [snippet]. rewrite Hm.
  assert (Hs : truthy (slice0 400 m) = true) by (rewrite slice0_truthy; [exact Ht|lia]).
  unfold or_opt, or_else; cbn [fmap option_fmap option_map].
  rewrite Hs, Hs. apply slice0_length.
Qed.

(** The shape of a resolved search: [count] is the number of entries, and
    an empty result carries the message and the fallback notice. *)
Lemma search_success_shape (i : Input) (response : SearchResponse) :
  let out := success i response in
  let results := results_of response in
  get "query" out = JStr (query i)
  /\ get "limit" out = of_Z (limit i)
  /\ carries "parameters" out
  /\ get "count" out = of_nat (List.length results)
  /\ get "results" out = JArr (result_js <$> results)
  /\ (results = [] ->
      get "message" out = JStr no_results_message
      /\ get "content" out = JStr (heading (query i) ++ no_results_notice))
  /\ (results <> [] -> get "message" out = JUndef).
Proof.
  simpl. split; [reflexivity|]. split; [reflexivity|].
  split; [unfold carries; simpl; discriminate|].
  split; [reflexivity|]. split; [reflexivity|]. split.
  - intros Hnil. unfold success. rewrite Hnil. split; reflexivity.
  - intros Hne. unfold success. destruct (results_of response); [congruence|reflexivity].
Qed.

End ToolFacts.

(** The bounds on a [searchWeb] input as the tool's description states
    them: [query] is a string of at least 3 characters, and [limit], when
    given, is a whole number from 1 to 10. *)
Definition query_within_bounds (v : jsval) : bool :=
  match get "query" v with
  | JStr s => (3 <=? str_length s)%nat
  | _ => false
  end.
Definition limit_within_bounds (v : jsval) : bool :=
  match get "limit" v with
  | JUndef => true
  | JNum q => is_integer q && (1 <=? to_Z q)%Z && (to_Z q <=? 10)%Z
  | _ => false
  end.
Definition within_bounds (v : jsval) : bool :=
  query_within_bounds v && limit_within_bounds v.

Definition repeat_char (c : ascii) (n : nat) : string :=
  string_of_list_ascii (repeat c n).

Definition failing_adapter (e : Thrown) : FirecrawlApp :=
  {| scrape := fun _ _ => Throw e; search := fun _ _ => Throw e |}.

Definition answering_adapter (response : SearchResponse) : FirecrawlApp :=
  {| scrape := fun _ _ => Throw (ErrorObject "not used");
     search := fun _ _ => Return response |}.

Definition sample_input : searchWebTool.Input :=
  {| searchWebTool.query := "valid query"; searchWebTool.limit := 5;
     searchWebTool.tbs := None; searchWebTool.location := None;
     searchWebTool.categories := None; searchWebTool.sources := None |}.

Section ToolClaims.

Import searchWebTool.

(** C4 (as the code has it): neither tool's [execute] ever throws, whatever
    the adapter does.  A failed search comes back as an object with an
    [error] field holding the message and empty [results]; a search
    without adapter comes back with a [note]; a failed scrape comes back
    as [{url, title, content}] with the failure told in [title] and
    [content]. *)
Theorem tools_never_throw (firecrawl : option FirecrawlApp) (u : string) (i : Input) :
  (exists out,
      EffM.outcome (scrapeWebsiteTool.execute firecrawl u) = Return out
      /\ forall app e,
           firecrawl = Some app -> scrape app u ["markdown"] = Throw e ->
           get "url" out = JStr u
           /\ get "title" out = JStr "Firecrawl scrape failed"
           /\ get "content" out = JStr ("Scrape error: " ++ error_message e))
  /\ (exists out,
        EffM.outcome (execute firecrawl i) = Return out
        /\ (firecrawl = None -> get "note" out = JStr not_configured_note)
        /\ forall app e,
             firecrawl = Some app -> search app (query i) (build_options i) = Throw e ->
             get "error" out = JStr (error_message e)
             /\ get "results" out = JArr []).
Proof.
  split.
  - destruct (scrape_execute_returns firecrawl u) as [out Hout].
    exists out. split; [exact Hout|].
    intros app e -> He. rewrite (scrape_execute_rejected _ _ _ He) in Hout.
    injection Hout as <-. repeat split.
  - destruct (search_execute_returns firecrawl i) as [out Hout].
    exists out. split; [exact Hout|]. split.
    + intros ->. injection Hout as <-. reflexivity.
    + intros app e -> He. rewrite (search_execute_rejected _ _ _ He) in Hout.
      injection Hout as <-. split; reflexivity.
Qed.

(** C4, at an adapter that throws a plain string. *)
Lemma tools_never_throw_witness :
  (exists out,
      EffM.outcome (scrapeWebsiteTool.execute
                      (Some (failing_adapter (ThrownValue (JStr "boom"))))
                      "https://example.com") = Return out
      /\ get "content" out = JStr "Scrape error: Unknown Firecrawl error.")
  /\ (exists out,
        EffM.outcome (execute (Some (failing_adapter (ThrownValue (JStr "boom"))))
                        sample_input) = Return out
        /\ get "error" out = JStr "Unknown Firecrawl error.").
Proof.
  destruct (tools_never_throw (Some (failing_adapter (ThrownValue (JStr "boom"))))
              "https://example.com" sample_input)
    as [[o1 [H1 S1]] [o2 [H2 [_ S2]]]].
  split.
  - exists o1. split; [exact H1|].
    destruct (S1 _ (ThrownValue (JStr "boom")) eq_refl eq_refl) as [_ [_ Hc]]. exact Hc.
  - exists o2. split; [exact H2|].
    destruct (S2 _ (ThrownValue (JStr "boom")) eq_refl eq_refl) as [He _]. exact He.
Defined.

(** C4, counterexample: when the adapter throws, what [scrapeWebsite]
    returns has neither an [error] nor a [note] field. *)
Lemma scrape_failure_has_no_error_field :
  exists out,
    scrapeWebsiteTool.execute (Some (failing_adapter (ErrorObject "boom")))
      "https://example.com"
    = (Return out, [FirecrawlScrape "https://example.com" ["markdown"]])
    /\ ~ carries "error" out
    /\ ~ carries "note" out.
Proof.
  eexists. split; [reflexivity|].
  unfold carries; simpl. split; intros H; apply H; reflexivity.
Qed.

(** C5: an input outside the bounds (a [query] shorter than 3, or a
    [limit] that is not a whole number from 1 to 10) fails the input
    schema, and the call is answered without any event: the adapter is not
    called. *)
Theorem searchWeb_input_out_of_bounds_rejected
    (URL_valid : string -> bool) (firecrawl : option FirecrawlApp) (call : ToolCall) :
  toolName call = "searchWeb" ->
  within_bounds (input call) = false ->
  inputSchema (input call) = None
  /\ dispatch URL_valid firecrawl call = (InvalidToolInput call, []).
Proof.
  intros Hname Hbad.
  assert (Hnone : inputSchema (input call) = None).
  { unfold within_bounds, query_within_bounds, limit_within_bounds in Hbad.
    unfold inputSchema, Zod.object_, Zod.field.
    destruct (input call) as [| |b|q|s|xs|fields]; try reflexivity.
    cbn [get] in Hbad. cbn [mbind option_bind].
    unfold Zod.min_length, Zod.string_.
    destruct (lookup_field "query" fields) as [| |b|q|s|xs|fs]; try reflexivity.
    cbn [mbind option_bind].
    destruct (3 <=? str_length s)%nat; [|reflexivity].
    cbn [mbind option_bind andb] in Hbad |- *.
    unfold Zod.default, Zod.max, Zod.min, Zod.int, Zod.number.
    destruct (lookup_field "limit" fields) as [| |b|q|s'|xs|fs];
      try discriminate; try reflexivity.
    cbn [mbind option_bind].
    destruct (is_integer q); [|reflexivity].
    cbn [mbind option_bind andb] in Hbad |- *.
    destruct (1 <=? to_Z q)%Z; [|reflexivity].
    cbn [mbind option_bind andb] in Hbad |- *.
    rewrite Hbad. reflexivity. }
  split; [exact Hnone|].
  unfold dispatch. rewrite Hname. cbn [String.eqb Ascii.eqb Bool.eqb].
  rewrite Hnone. reflexivity.
Qed.

(** C5, at [searchWeb(query = "ab")]. *)
Lemma searchWeb_input_out_of_bounds_witness :
  let call := {| toolName := "searchWeb"; callId := "call_1";
                 input := JObj [("query", JStr "ab")] |} in
  inputSchema (input call) = None
  /\ dispatch (fun _ => true)
       (Some (answering_adapter {| web := None; news := None; images := None |})) call
     = (InvalidToolInput call, []).
Proof.
  apply (searchWeb_input_out_of_bounds_rejected (fun _ => true)); reflexivity.
Defined.

End ToolClaims.

Section SearchClaims.

Import searchWebTool.

(** A valid call does reach the adapter when one is configured: the trace
    of [dispatch] then holds the search. *)
Example searchWeb_valid_call_reaches_adapter :
  let call := {| toolName := "searchWeb"; callId := "call_1";
                 input := JObj [("query", JStr "valid query")] |} in
  snd (dispatch (fun _ => true)
         (Some (answering_adapter {| web := None; news := None; images := None |})) call)
  = [FirecrawlSearch "valid query" (build_options sample_input)].
Proof. reflexivity. Qed.

(** C6: with no Firecrawl key, and so no adapter, [searchWeb] returns an
    object with empty [results] and a [note] that says why; it does not
    throw and calls nothing. *)
Theorem searchWeb_without_adapter (host : Host) (env : Env) (i : Input) :
  truthy_opt (FIRECRAWL_API_KEY env) = false ->
  exists out,
    execute (firecrawl host env) i = (Return out, [])
    /\ get "query" out = JStr (query i)
    /\ get "limit" out = of_Z (limit i)
    /\ get "results" out = JArr []
    /\ get "note" out = JStr "FIRECRAWL_API_KEY is not configured. Unable to perform search."
    /\ ~ carries "error" out.
Proof.
  intros Hkey.
  assert (Hnone : firecrawl host env = None).
  { unfold firecrawl. destruct (FIRECRAWL_API_KEY env) as [key|]; [|reflexivity].
    simpl in Hkey. rewrite Hkey. reflexivity. }
  rewrite Hnone. eexists. split; [reflexivity|].
  repeat split. unfold carries; simpl. intros H; apply H; reflexivity.
Qed.

Definition silent_host : Host :=
  {| URL_valid := fun _ => true;
     JSON_parse := fun _ => None;
     JSON_stringify := fun v => v;
     new_FirecrawlApp := fun _ => failing_adapter (ErrorObject "offline");
     validateUIMessages :=
       fun v => match v with
                | JArr xs => Return xs
                | _ => Throw (ErrorObject "messages must be an array")
                end;
     model := fun _ => Throw (ErrorObject "no model");
     system_prompt := "";
     choices := {| chatAgent.on_violation := fun _ => chatAgent.Aborted "contract_violation";
                   chatAgent.on_text := fun _ => chatAgent.Aborted "no_structured_output" |};
     ui_stream := fun _ => [];
     ui_headers := fun _ => [];
     TextDecoder_decode := fun _ => Return "";
     console_ok := fun _ => true;
     console_failure := fun _ => ErrorObject "console" |}.

(** C6, at [searchWeb(query = "valid query", limit = 5)] with no key set. *)
Lemma searchWeb_without_adapter_witness :
  exists out,
    execute (firecrawl silent_host {| OPENAI_API_KEY := Some "sk"; FIRECRAWL_API_KEY := None |})
      sample_input = (Return out, [])
    /\ get "results" out = JArr []
    /\ get "note" out = JStr "FIRECRAWL_API_KEY is not configured. Unable to perform search.".
Proof.
  destruct (searchWeb_without_adapter silent_host
              {| OPENAI_API_KEY := Some "sk"; FIRECRAWL_API_KEY := None |}
              sample_input eq_refl) as [out [H [_ [_ [Hr [Hn _]]]]]].
  exists out. auto.
Defined.

(** C8, at the failing input: the adapter answers one entry that has a
    401-character [description] and no [markdown].  The search succeeds
    and the entry's [snippet] is the whole description, 401 characters. *)
Theorem searchWeb_snippet_from_description_exceeds_400 :
  let item := {| item_url := "https://example.com"; item_title := Some "Example";
                 item_markdown := None;
                 item_description := Some (repeat_char "a" 401);
                 item_metadata := None; item_category := None |} in
  let app := answering_adapter {| web := Some [item]; news := None; images := None |} in
  exists out r,
    EffM.outcome (execute (Some app) sample_input) = Return out
    /\ get "count" out = of_nat 1
    /\ get "results" out = JArr [result_js r]
    /\ snippet r = repeat_char "a" 401
    /\ str_length (snippet r) = 401.
Proof.
  simpl. eexists. eexists. split; [reflexivity|].
  split; [reflexivity|]. split; [reflexivity|].
  split; vm_compute; reflexivity.
Qed.

(** C10: a resolved search is built from the [web] field alone.  The
    returned object is the one obtained from a response holding only the
    [web] entries (none, when the field is absent): [results] are the
    [web] entries in order, [count] is their number, [content] is their
    summary, and nothing under [news] or [images] enters, whatever
    [sources] asked for. *)
Theorem searchWeb_results_from_web_only
    (app : FirecrawlApp) (i : Input) (response : SearchResponse) :
  search app (query i) (build_options i) = Return response ->
  let web_entries := match web response with Some items => items | None => [] end in
  exists out,
    EffM.outcome (execute (Some app) i) = Return out
    /\ out = success i {| web := Some web_entries; news := None; images := None |}
    /\ get "results" out = JArr (result_js <$> (to_result <$> web_entries))
    /\ get "count" out = of_nat (List.length web_entries)
    /\ get "content" out = JStr (summary_of (query i) (to_result <$> web_entries)).
Proof.
  intros H web_entries.
  rewrite (search_execute_resolved _ _ _ H).
  exists (success i response). split; [reflexivity|].
  assert (Hres : results_of response = to_result <$> web_entries).
  { unfold results_of, webResults, nullish, web_entries.
    destruct (web response); reflexivity. }
  unfold success. rewrite Hres.
  assert (Hres' : results_of {| web := Some web_entries; news := None; images := None |}
                  = to_result <$> web_entries) by reflexivity.
  rewrite Hres'. cbn [get lookup_field String.eqb Ascii.eqb Bool.eqb].
  rewrite length_fmap. repeat split.
Qed.

(** C10, at a response with one [web] entry and one [news] entry, when
    [sources] asked for news. *)
Lemma searchWeb_results_from_web_only_witness :
  let item := {| item_url := "https://example.com"; item_title := Some "Example";
                 item_markdown := Some "text"; item_description := None;
                 item_metadata := None; item_category := None |} in
  let response := {| web := Some [item];
                     news := Some [JObj [("title", JStr "Headline")]];
                     images := None |} in
  let i := {| query := "valid query"; limit := 5; tbs := None; location := None;
              categories := None; sources := Some [SrcNews] |} in
  exists out,
    EffM.outcome (execute (Some (answering_adapter response)) i) = Return out
    /\ get "results" out = JArr [result_js (to_result item)]
    /\ get "count" out = of_nat 1.
Proof.
  intros item response i.
  destruct (searchWeb_results_from_web_only (answering_adapter response) i response eq_refl)
    as [out [H [_ [Hr [Hc _]]]]].
  exists out. split; [exact H|]. split; [exact Hr|exact Hc].
Defined.

End SearchClaims.

(** ** The agent loop *)

Section DispatchFacts.

Variable URL_valid : string -> bool.
Variable firecrawl : option FirecrawlApp.

Lemma scrape_execute_trace (u : string) :
  Forall (fun e => is_model_call e = false)
    (EffM.trace (scrapeWebsiteTool.execute firecrawl u)).
Proof.
  destruct firecrawl as [app|]; [|constructor].
  unfold scrapeWebsiteTool.execute, scrapeWebsiteTool.call_scrape,
    EffM.try_catch, EffM.bind, EffM.emit, EffM.lift, EffM.trace.
  destruct (scrape app u ["markdown"]); simpl; repeat constructor.
Qed.

Lemma search_execute_trace (i : searchWebTool.Input) :
  Forall (fun e => is_model_call e = false)
    (EffM.trace (searchWebTool.execute firecrawl i)).
Proof.
  destruct firecrawl as [app|]; [|constructor].
  unfold searchWebTool.execute, searchWebTool.call_search,
    EffM.try_catch, EffM.bind, EffM.emit, EffM.lift, EffM.trace.
  destruct (search app _ _); simpl; repeat constructor.
Qed.

Lemma settle_trace (call : ToolCall) (m : Eff jsval) :
  snd (settle call m) = EffM.trace m.
Proof. destruct m as [[out|e] t]; reflexivity. Qed.

Lemma dispatch_trace (call : ToolCall) :
  Forall (fun e => is_model_call e = false) (snd (dispatch URL_valid firecrawl call)).
Proof.
  unfold dispatch.
  destruct (String.eqb (toolName call) "scrapeWebsite").
  - destruct (scrapeWebsiteTool.inputSchema URL_valid (input call)) as [u|]; [|constructor].
    rewrite settle_trace. apply scrape_execute_trace.
  - destruct (String.eqb (toolName call) "searchWeb"); [|constructor].
    destruct (searchWebTool.inputSchema (input call)) as [i|]; [|constructor].
    rewrite settle_trace. apply search_execute_trace.
Qed.

Lemma dispatch_all_trace (calls : list ToolCall) :
  Forall (fun e => is_model_call e = false) (snd (dispatch_all URL_valid firecrawl calls)).
Proof.
  induction calls as [|call rest IH]; simpl; [constructor|].
  pose proof (dispatch_trace call) as Hc.
  destruct (dispatch URL_valid firecrawl call) as [part t].
  destruct (dispatch_all URL_valid firecrawl rest) as [parts t'].
  simpl in *. apply Forall_app; split; assumption.
Qed.

Lemma no_model_calls_in (t : list Event) :
  Forall (fun e => is_model_call e = false) t ->
  List.length (filter (fun e => is_model_call e = true) t) = 0.
Proof.
  induction 1 as [|e t He _ IH]; [reflexivity|].
  rewrite filter_cons. destruct (decide (is_model_call e = true)) as [Ht|_].
  - congruence.
  - exact IH.
Qed.

End DispatchFacts.

Section LoopFacts.

Import chatAgent.

Variable system_prompt : string.
Variable model : ModelCapability.
Variable choices : OpenChoices.
Variable URL_valid : string -> bool.
Variable firecrawl : option FirecrawlApp.

Local Abbreviation step' := (step system_prompt model choices URL_valid firecrawl).
Local Abbreviation run' := (run system_prompt model choices URL_valid firecrawl).

Lemma model_calls_snoc_model (cfg : Config) (input : ModelInput) (s : LoopState)
    (h : list Message) :
  model_calls {| state := s; history := h;
                 events := (events cfg ++ [ModelCall input])%list |}
  = S (model_calls cfg).
Proof.
  unfold model_calls; simpl. rewrite filter_app, length_app.
  change (filter (fun e => is_model_call e = true) [ModelCall input]) with [ModelCall input].
  simpl. lia.
Qed.

Lemma model_calls_app_tools (cfg : Config) (t : list Event) (s : LoopState)
    (h : list Message) :
  Forall (fun e => is_model_call e = false) t ->
  model_calls {| state := s; history := h; events := (events cfg ++ t)%list |}
  = model_calls cfg.
Proof.
  intros Ht. unfold model_calls; simpl. rewrite filter_app, length_app.
  rewrite (no_model_calls_in t Ht). lia.
Qed.

(** Transitions left before a run stops, at most. *)
Definition remaining (cfg : Config) : nat :=
  match state cfg with
  | RUNNING n => 2 * (11 - n)
  | AWAITING_TOOL_RESULTS n _ => 2 * (11 - n) - 1
  | FINISHED _ | ABORTED _ => 0
  end.

(** The step counter stays between 1 and the ceiling. *)
Definition within_ceiling (cfg : Config) : Prop :=
  match state cfg with
  | RUNNING n | AWAITING_TOOL_RESULTS n _ => 1 <= n <= 10
  | FINISHED _ | ABORTED _ => True
  end.

Lemma remaining_final (f : Final) (h : list Message) (t : list Event) :
  remaining {| state := final_state f; history := h; events := t |} = 0
  /\ within_ceiling {| state := final_state f; history := h; events := t |}.
Proof. destruct f; split; constructor. Qed.

Lemma within_ceiling_step (cfg : Config) :
  within_ceiling cfg ->
  within_ceiling (step' cfg) /\ remaining (step' cfg) <= remaining cfg - 1.
Proof.
  unfold within_ceiling at 1. unfold step.
  destruct (state cfg) as [n|n calls|r|reason] eqn:Hs; intros Hn.
  - destruct (model (model_input system_prompt n (history cfg))) as [[calls|v|text]|e].
    + unfold within_ceiling, remaining; cbn [state]. rewrite Hs. split; lia.
    + destruct (scoutResponseSchema v) as [r|].
      * unfold within_ceiling, remaining; cbn [state]. split; [exact I|lia].
      * destruct (remaining_final (on_violation choices v) (history cfg)
                    (events cfg ++ [ModelCall (model_input system_prompt n (history cfg))])%list)
          as [H1 H2].
        split; [exact H2|]. rewrite H1. lia.
    + destruct (remaining_final (on_text choices text) (history cfg)
                  (events cfg ++ [ModelCall (model_input system_prompt n (history cfg))])%list)
        as [H1 H2].
      split; [exact H2|]. rewrite H1. lia.
    + unfold within_ceiling, remaining; cbn [state]. split; [exact I|lia].
  - destruct (dispatch_all URL_valid firecrawl calls) as [parts t].
    unfold within_ceiling, remaining, stopWhen; cbn [state]. rewrite Hs.
    destruct (n =? 10)%nat eqn:E.
    + split; [exact I|lia].
    + apply Nat.eqb_neq in E. split; lia.
  - unfold within_ceiling, remaining. rewrite Hs. split; [exact I|lia].
  - unfold within_ceiling, remaining. rewrite Hs. split; [exact I|lia].
Qed.

Lemma within_ceiling_run (k : nat) (cfg : Config) :
  within_ceiling cfg ->
  within_ceiling (run' k cfg) /\ remaining (run' k cfg) <= remaining cfg - k.
Proof.
  revert cfg. induction k as [|k IH]; intros cfg H; simpl.
  - split; [exact H|lia].
  - destruct (within_ceiling_step cfg H) as [H1 H2].
    destruct (IH _ H1) as [H3 H4]. split; [exact H3|lia].
Qed.

Lemma within_ceiling_stopped (cfg : Config) :
  within_ceiling cfg -> remaining cfg = 0 -> terminal (state cfg) = true.
Proof.
  unfold within_ceiling, remaining.
  destruct (state cfg) as [n|n calls|r|reason]; intros H Hr;
    [lia|lia|reflexivity|reflexivity].
Qed.

Lemma respond_unfold (messages : list jsval) :
  respond system_prompt model choices URL_valid firecrawl messages
  = run' 20 (init messages).
Proof. reflexivity. Qed.

(** The fuel of [respond] is enough: whatever the model answers, the run
    has stopped by then. *)
Lemma respond_stops (messages : list jsval) :
  terminal (state (respond system_prompt model choices URL_valid firecrawl messages)) = true.
Proof.
  assert (H0 : within_ceiling (init messages)) by (unfold within_ceiling; simpl; lia).
  assert (Hrem : remaining (init messages) = 20) by reflexivity.
  destruct (within_ceiling_run 20 _ H0) as [H1 H2].
  rewrite respond_unfold. apply within_ceiling_stopped; [exact H1|].
  rewrite Hrem in H2. lia.
Qed.

(** C7 (as the code has it): at step [n], counted from 1, the model is
    invoked once, with the whole message history, the tool catalog and the
    structured-output contract; [prepareStep] supplies its directive
    exactly at the last step, [n = 10], whose zero-based [stepNumber] is 9,
    and at no other step. *)
Theorem model_invocation_at_step (cfg : Config) (n : nat) :
  state cfg = RUNNING n ->
  exists input,
    events (step' cfg) = (events cfg ++ [ModelCall input])%list
    /\ mi_messages input = history cfg
    /\ mi_tools input = ["scrapeWebsite"; "searchWeb"]
    /\ mi_output input = scoutResponseSchema
    /\ mi_prepared input = prepareStep (n - 1)
    /\ (is_Some (ps_system (mi_prepared input)) <-> n = max_steps)
    /\ (n = max_steps ->
        ps_system (mi_prepared input)
        = Some ("You're approaching your step limit (step 10 of 10). "
                ++ "Consider wrapping up your search and preparing your response.")).
Proof.
  intros Hs. exists (model_input system_prompt n (history cfg)).
  split.
  { unfold step. rewrite Hs.
    destruct (model (model_input system_prompt n (history cfg))) as [[calls|v|text]|e];
      try reflexivity.
    destruct (scoutResponseSchema v); reflexivity. }
  repeat split; try reflexivity.
  - simpl. unfold prepareStep, max_steps.
    destruct (n - 1 =? 9)%nat eqn:E.
    + intros _. apply Nat.eqb_eq in E. lia.
    + intros [x Hx]. discriminate.
  - intros ->. simpl. eexists. reflexivity.
  - intros ->. reflexivity.
Qed.

End LoopFacts.

(** C7, counterexample: at step [max - 1 = 9] the model is handed no
    directive; the directive comes at step [max = 10]. *)
Lemma no_directive_at_step_before_last :
  ps_system (mi_prepared (chatAgent.model_input "" (chatAgent.max_steps - 1) [])) = None
  /\ ps_system (mi_prepared (chatAgent.model_input "" chatAgent.max_steps []))
     = Some ("You're approaching your step limit (step 10 of 10). "
             ++ "Consider wrapping up your search and preparing your response.").
Proof. split; reflexivity. Qed.

Definition sample_choices : chatAgent.OpenChoices :=
  {| chatAgent.on_violation := fun _ => chatAgent.Aborted "contract_violation";
     chatAgent.on_text := fun _ => chatAgent.Aborted "no_structured_output" |}.

(** A model capability that asks for one search at every step. *)
Definition always_searching : chatAgent.ModelCapability :=
  fun _ => Return (chatAgent.RequestTools
                     [{| toolName := "searchWeb"; callId := "call";
                         input := JObj [("query", JStr "valid query")] |}]).

(** C7, at the tenth step of a run with an empty history. *)
Lemma model_invocation_at_step_witness :
  exists input,
    chatAgent.events
      (chatAgent.step "" always_searching sample_choices (fun _ => true) None
         {| chatAgent.state := chatAgent.RUNNING 10; chatAgent.history := [];
            chatAgent.events := [] |})
    = [ModelCall input]
    /\ mi_messages input = []
    /\ is_Some (ps_system (mi_prepared input)).
Proof.
  destruct (model_invocation_at_step "" always_searching sample_choices (fun _ => true) None
              {| chatAgent.state := chatAgent.RUNNING 10; chatAgent.history := [];
                 chatAgent.events := [] |} 10 eq_refl)
    as [input [He [Hm [_ [_ [_ [Hiff _]]]]]]].
  exists input. split; [exact He|]. split; [exact Hm|]. apply Hiff. reflexivity.
Defined.

Section AlwaysTools.

Import chatAgent.

Variable system_prompt : string.
Variable model : ModelCapability.
Variable choices : OpenChoices.
Variable URL_valid : string -> bool.
Variable firecrawl : option FirecrawlApp.

(** The model asks for tools whatever it is handed. *)
Hypothesis always_tools : forall input, exists calls, model input = Return (RequestTools calls).

Local Abbreviation step' := (step system_prompt model choices URL_valid firecrawl).
Local Abbreviation run' := (run system_prompt model choices URL_valid firecrawl).

(** Where such a run can be: at step [n] having made [n - 1] model calls,
    waiting for the tools of step [n] having made [n], or stopped at the
    ceiling having made 10. *)
Definition on_track (cfg : Config) : Prop :=
  match state cfg with
  | RUNNING n => 1 <= n <= 10 /\ model_calls cfg = n - 1
  | AWAITING_TOOL_RESULTS n _ => 1 <= n <= 10 /\ model_calls cfg = n
  | ABORTED reason => reason = "step_limit_exceeded" /\ model_calls cfg = 10
  | FINISHED _ => False
  end.

Lemma on_track_step (cfg : Config) :
  on_track cfg -> on_track (step' cfg) /\ remaining (step' cfg) = remaining cfg - 1.
Proof.
  unfold on_track, remaining, step.
  destruct (state cfg) as [n|n calls|r|reason] eqn:Hs.
  - intros [Hn Hc].
    destruct (always_tools (model_input system_prompt n (history cfg))) as [calls Hm].
    rewrite Hm. cbn [state]. rewrite model_calls_snoc_model. split; lia.
  - intros [Hn Hc].
    pose proof (dispatch_all_trace URL_valid firecrawl calls) as Ht.
    destruct (dispatch_all URL_valid firecrawl calls) as [parts t]. simpl in Ht.
    cbn [state]. rewrite (model_calls_app_tools _ _ _ _ Ht).
    unfold stopWhen. destruct (n =? 10)%nat eqn:E.
    + apply Nat.eqb_eq in E. split; [split; [reflexivity|lia]|lia].
    + apply Nat.eqb_neq in E. split; [|lia]. split; lia.
  - intros [].
  - intros H. rewrite Hs. split; [exact H|reflexivity].
Qed.

Lemma on_track_run (k : nat) (cfg : Config) :
  on_track cfg -> on_track (run' k cfg) /\ remaining (run' k cfg) = remaining cfg - k.
Proof.
  revert cfg. induction k as [|k IH]; intros cfg H; simpl.
  - split; [exact H|lia].
  - destruct (on_track_step cfg H) as [H1 H2].
    destruct (IH _ H1) as [H3 H4]. split; [exact H3|lia].
Qed.

Lemma on_track_init (messages : list jsval) : on_track (init messages).
Proof. unfold on_track, init, model_calls; simpl. split; [lia|reflexivity]. Qed.

Lemma on_track_stopped (cfg : Config) :
  on_track cfg -> remaining cfg = 0 ->
  state cfg = ABORTED "step_limit_exceeded" /\ model_calls cfg = 10.
Proof.
  unfold on_track, remaining.
  destruct (state cfg) as [n|n calls|r|reason]; intros H Hr; [lia|lia|contradiction|].
  destruct H as [-> H]. split; [reflexivity|exact H].
Qed.

Lemma on_track_going (cfg : Config) :
  on_track cfg -> 0 < remaining cfg -> terminal (state cfg) = false.
Proof.
  unfold on_track, remaining.
  destruct (state cfg) as [n|n calls|r|reason]; intros H Hr;
    [reflexivity|reflexivity|contradiction|lia].
Qed.

Lemma on_track_not_finished (cfg : Config) (r : StructuredResult) :
  on_track cfg -> state cfg <> FINISHED r.
Proof. unfold on_track. intros H Hs. rewrite Hs in H. exact H. Qed.

(** C2: when the model asks for tools at every step, the run from
    [RUNNING 1] is never [FINISHED]; it keeps going for 10 steps (two
    transitions each, none of the first 20 configurations being final) and
    then stops in [ABORTED "step_limit_exceeded"], the model having been
    invoked exactly 10 times. *)
Theorem always_tools_aborts_at_step_limit (messages : list jsval) :
  state (respond system_prompt model choices URL_valid firecrawl messages)
  = ABORTED "step_limit_exceeded"
  /\ model_calls (respond system_prompt model choices URL_valid firecrawl messages)
     = max_steps
  /\ (forall k r, state (run' k (init messages)) <> FINISHED r)
  /\ (forall k, k < 2 * max_steps -> terminal (state (run' k (init messages))) = false).
Proof.
  pose proof (on_track_init messages) as H0.
  assert (Hrem : remaining (init messages) = 20) by reflexivity.
  assert (Hstop : state (run' 20 (init messages)) = ABORTED "step_limit_exceeded"
                  /\ model_calls (run' 20 (init messages)) = 10).
  { destruct (on_track_run 20 _ H0) as [H1 H2].
    apply on_track_stopped; [exact H1|]. rewrite H2, Hrem. reflexivity. }
  rewrite (respond_unfold system_prompt model choices URL_valid firecrawl).
  split; [apply Hstop|]. split; [apply Hstop|]. split.
  - intros k r. apply on_track_not_finished. apply (on_track_run k _ H0).
  - intros k Hk. destruct (on_track_run k _ H0) as [H1 H2].
    apply on_track_going; [exact H1|]. rewrite H2, Hrem. unfold max_steps in Hk. lia.
Qed.

End AlwaysTools.

(** C2, at the model that asks for one search at every step, with no
    adapter configured. *)
Lemma always_tools_aborts_at_step_limit_witness :
  chatAgent.state
    (chatAgent.respond "" always_searching sample_choices (fun _ => true) None [])
  = chatAgent.ABORTED "step_limit_exceeded"
  /\ chatAgent.model_calls
       (chatAgent.respond "" always_searching sample_choices (fun _ => true) None [])
     = 10.
Proof.
  destruct (always_tools_aborts_at_step_limit "" always_searching sample_choices
              (fun _ => true) None
              (fun _ => ex_intro _ _ eq_refl) []) as [H1 [H2 _]].
  split; [exact H1|exact H2].
Defined.

(** ** The request handler *)

(** What [POST] writes to the console before it starts the agent, one
    argument list per [console.log]. *)
Definition announced (host : Host) (validatedMessages : list jsval) : list (list jsval) :=
  ([[JStr (newline ++ "=== Starting Agent Execution ===")];
    [JStr "Message count:"; of_nat (List.length validatedMessages)]]
   ++ match last_user_message validatedMessages with
      | Some lastUserMessage =>
          [[JStr "Last user message:"; JSON_stringify host lastUserMessage]]
      | None => []
      end
   ++ [[JStr ("================================" ++ newline)]])%list.

(** What the reader writes for one decoded chunk: what each of its
    non-blank lines gives, in order. *)
Definition logged_for_chunk (host : Host) (chunk : string) : list Event :=
  concat ((fun line => EffM.trace (Logging.on_line host line))
            <$> List.filter trim_truthy (split_newline chunk)).

Section HandlerFacts.

Lemma outcome_bind {A B : Type} (m : Eff A) (k : A -> Eff B) :
  EffM.outcome (EffM.bind m k)
  = match EffM.outcome m with
    | Return a => EffM.outcome (k a)
    | Throw e => Throw e
    end.
Proof.
  destruct m as [[a|e] t]; simpl; [|reflexivity].
  destruct (k a) as [r t']. reflexivity.
Qed.

(** A line never ends the reader: a parse error, an unexpected value or a
    refused console write is dropped by the inner [catch]. *)
Lemma on_line_returns (host : Host) (line : string) :
  EffM.outcome (Logging.on_line host line) = Return tt.
Proof.
  unfold Logging.on_line, EffM.try_catch.
  match goal with
  | |- context [match ?m with (_, _) => _ end] => destruct m as [[[]|e] t]
  end; reflexivity.
Qed.

Lemma for_each_returns {A B : Type} (f : A -> Eff B) (xs : list A) :
  (forall x, exists b, EffM.outcome (f x) = Return b) ->
  exists bs, EffM.outcome (EffM.for_each f xs) = Return bs.
Proof.
  intros Hf. induction xs as [|x xs [bs IH]]; [eexists; reflexivity|].
  destruct (Hf x) as [b Hb]. exists (b :: bs).
  cbn [EffM.for_each]. rewrite outcome_bind, Hb, outcome_bind, IH. reflexivity.
Qed.

(** A loop whose body always returns runs over the whole list, and its
    trace is the bodies' traces one after the other. *)
Lemma for_each_traced {A B : Type} (f : A -> Eff B) (xs : list A) :
  (forall x, In x xs -> exists b, EffM.outcome (f x) = Return b) ->
  exists bs,
    EffM.for_each f xs = (Return bs, concat ((fun x => EffM.trace (f x)) <$> xs)).
Proof.
  induction xs as [|x xs IH]; intros Hf; [exists []; reflexivity|].
  destruct IH as [bs IH]; [intros y Hy; apply Hf; right; exact Hy|].
  destruct (Hf x (or_introl eq_refl)) as [b Hb].
  exists (b :: bs). cbn [EffM.for_each fmap list_fmap concat]. rewrite IH.
  destruct (f x) as [[b'|e] t]; [|discriminate Hb].
  injection Hb as ->. cbn [EffM.bind EffM.ret EffM.trace snd].
  rewrite app_nil_r. reflexivity.
Qed.

Lemma on_chunk_decoded (host : Host) (value : Chunk) (chunk : string) :
  TextDecoder_decode host value = Return chunk ->
  Logging.on_chunk host value = (Return tt, logged_for_chunk host chunk).
Proof.
  intros Hd. unfold Logging.on_chunk, logged_for_chunk.
  unfold EffM.lift. rewrite Hd. cbn [EffM.bind].
  destruct (for_each_traced (Logging.on_line host)
              (List.filter trim_truthy (split_newline chunk))) as [ls Hls].
  - intros line _. exists tt. apply on_line_returns.
  - rewrite Hls. cbn [EffM.bind EffM.ret]. rewrite app_nil_r. reflexivity.
Qed.

(** With every chunk decoded, the reader goes through all of them in
    order and ends normally. *)
Lemma logging_run_decoded (host : Host) (logStream : list Chunk) (chunks : list string) :
  Forall2 (fun value chunk => TextDecoder_decode host value = Return chunk)
    logStream chunks ->
  Logging.run host logStream
  = (Return tt, concat (logged_for_chunk host <$> chunks)).
Proof.
  intros Hd. unfold Logging.run.
  destruct (for_each_traced (Logging.on_chunk host) logStream) as [us Hus].
  - intros value Hin. exists tt.
    assert (Hc : exists chunk, TextDecoder_decode host value = Return chunk).
    { clear - Hd Hin. induction Hd as [|v c l k Hv _ IH]; [contradiction|].
      destruct Hin as [<-|Hin]; [exists c; exact Hv|exact (IH Hin)]. }
    destruct Hc as [chunk Hc]. rewrite (on_chunk_decoded host value chunk Hc). reflexivity.
  - rewrite Hus. cbn [EffM.bind EffM.ret EffM.try_catch]. rewrite app_nil_r.
    f_equal. f_equal. clear Hus us.
    induction Hd as [|value chunk logStream chunks Hc _ IH]; [reflexivity|].
    cbn [fmap list_fmap]. rewrite (on_chunk_decoded host value chunk Hc).
    cbn [EffM.trace snd]. f_equal. exact IH.
Qed.

(** What the handler answers once it streams: the agent's headers and the
    agent's body, whatever the reader of the other branch does. *)
Lemma handle_outcome (logger : list Chunk -> Eff unit)
    (host : Host) (env : Env) (req : Request) :
  EffM.outcome (handle logger host env req)
  = if negb (truthy_opt (OPENAI_API_KEY env)) then
      Return (JsonResponse 400 (JObj [("error", JStr "Set OPENAI_API_KEY to enable the chat.")]))
    else
      match JSON_parse host (body_text req) with
      | None => Return (JsonResponse 400 (JObj [("error", JStr "Invalid JSON payload.")]))
      | Some body =>
          match prop "messages" body with
          | Throw e => Throw e
          | Return given =>
              let messages := match given with JUndef | JNull => JArr [] | _ => given end in
              match validateUIMessages host messages with
              | Throw e => Throw e
              | Return validated =>
                  let response :=
                    chatAgent.respond (system_prompt host) (model host) (choices host)
                      (URL_valid host) (firecrawl host env) validated in
                  match EffM.outcome
                          (console_log host [JStr (newline ++ "=== Starting Agent Execution ===")] ;;;
                           console_log host [JStr "Message count:"; of_nat (List.length validated)] ;;;
                           match last_user_message validated with
                           | Some lastUserMessage =>
                               console_log host [JStr "Last user message:";
                                                 JSON_stringify host lastUserMessage]
                           | None => EffM.ret tt
                           end ;;;
                           console_log host [JStr ("================================" ++ newline)])
                  with
                  | Throw e => Throw e
                  | Return _ =>
                      Return (StreamResponse (ui_headers host response) (ui_stream host response))
                  end
              end
          end
      end.
Proof.
  unfold handle.
  destruct (negb (truthy_opt (OPENAI_API_KEY env))); [reflexivity|].
  destruct (JSON_parse host (body_text req)) as [body|]; [|reflexivity].
  rewrite outcome_bind. unfold EffM.lift at 1. cbn [EffM.outcome fst].
  destruct (prop "messages" body) as [given|e]; [|reflexivity].
  rewrite outcome_bind. unfold EffM.lift at 1. cbn [EffM.outcome fst].
  destruct (validateUIMessages host _) as [validated|e]; [|reflexivity].
  cbv zeta.
  repeat rewrite outcome_bind.
  destruct (EffM.outcome (console_log host [JStr (newline ++ "=== Starting Agent Execution ===")]));
    [|reflexivity].
  destruct (EffM.outcome (console_log host [JStr "Message count:"; _])); [|reflexivity].
  destruct (EffM.outcome match last_user_message validated with
                         | Some _ => _ | None => _ end); [|reflexivity].
  destruct (EffM.outcome (console_log host [JStr ("================================" ++ newline)]));
    [|reflexivity].
  reflexivity.
Qed.

Lemma bind_returned {A B : Type} (a : A) (t : list Event) (k : A -> Eff B) :
  EffM.bind (Return a, t) k = (fst (k a), (t ++ snd (k a))%list).
Proof. unfold EffM.bind. destruct (k a). reflexivity. Qed.

Lemma console_log_ok (host : Host) (args : list jsval) :
  console_ok host args = true ->
  console_log host args = (Return tt, [ConsoleLog args]).
Proof. intros H. unfold console_log. rewrite H. reflexivity. Qed.

(** The handler on a request that gets as far as the agent: the response
    is the agent's headers and the agent's chunks, and the trace is the
    console lines of the request, the calls of the run, and whatever the
    reader does with the chunks it is handed, which are the same chunks. *)
Lemma handle_streams (logger : list Chunk -> Eff unit)
    (host : Host) (env : Env) (req : Request) (body given : jsval)
    (validated : list jsval) :
  truthy_opt (OPENAI_API_KEY env) = true ->
  JSON_parse host (body_text req) = Some body ->
  prop "messages" body = Return given ->
  validateUIMessages host
    (match given with JUndef | JNull => JArr [] | _ => given end) = Return validated ->
  Forall (fun args => console_ok host args = true) (announced host validated) ->
  let response :=
    chatAgent.respond (system_prompt host) (model host) (choices host)
      (URL_valid host) (firecrawl host env) validated in
  handle logger host env req
  = (Return (StreamResponse (ui_headers host response) (ui_stream host response)),
     ((ConsoleLog <$> announced host validated)
      ++ chatAgent.events response
      ++ EffM.trace (logger (ui_stream host response)))%list).
Proof.
  intros Hkey Hp Hg Hv Hok response. unfold handle.
  rewrite Hkey. cbn [negb]. rewrite Hp. unfold EffM.lift. rewrite Hg.
  rewrite bind_returned. cbv beta zeta. rewrite Hv. rewrite bind_returned.
  cbv beta zeta. fold response.
  unfold announced in Hok |- *.
  apply Forall_app in Hok as [H12 Hok]. apply Forall_app in Hok as [Hu H4].
  apply Forall_cons in H12 as [H1 H2]. apply Forall_cons in H2 as [H2 _].
  apply Forall_cons in H4 as [H4 _].
  rewrite (console_log_ok host _ H1), (console_log_ok host _ H2),
    (console_log_ok host _ H4).
  destruct (logger (ui_stream host response)) as [o t] eqn:Hl.
  destruct (last_user_message validated) as [lastUserMessage|].
  - apply Forall_cons in Hu as [Hu _]. rewrite (console_log_ok host _ Hu).
    unfold tee, background. rewrite Hl.
    cbn [EffM.bind EffM.ret EffM.trace fst snd fmap list_fmap app].
    rewrite !app_nil_r. reflexivity.
  - unfold tee, background. rewrite Hl.
    cbn [EffM.bind EffM.ret EffM.trace fst snd fmap list_fmap app].
    rewrite !app_nil_r. reflexivity.
Qed.

End HandlerFacts.

(** A host whose model asks for a search at every step and whose logging
    branch fails wherever it can: the decoder throws on every chunk, and
    the console refuses the error report. *)
Definition faulty_logging_host : Host :=
  {| URL_valid := fun _ => true;
     JSON_parse := fun s => if String.eqb s "{}" then Some (JObj []) else None;
     JSON_stringify := fun v => v;
     new_FirecrawlApp := fun _ => failing_adapter (ErrorObject "offline");
     validateUIMessages :=
       fun v => match v with
                | JArr xs => Return xs
                | _ => Throw (ErrorObject "messages must be an array")
                end;
     model := always_searching;
     system_prompt := "";
     choices := sample_choices;
     ui_stream := fun _ => [[Byte.x48]; [Byte.x49]; [Byte.x4a]];
     ui_headers := fun _ => [("content-type", "text/event-stream")];
     TextDecoder_decode := fun _ => Throw (ErrorObject "decode");
     console_ok := fun args => match args with
                               | JStr "Logging error:" :: _ => false
                               | _ => true
                               end;
     console_failure := fun _ => ErrorObject "console" |}.

Definition keyed_env : Env :=
  {| OPENAI_API_KEY := Some "sk-test"; FIRECRAWL_API_KEY := None |}.

(** A host that streams: chunks are decoded byte for byte, two event
    payloads are JSON to it (a tool call and a finish), and its console
    refuses the line that prints a tool call's arguments. *)
Definition tool_call_payload : string :=
  "{" ++ dquote ++ "type" ++ dquote ++ ":" ++ dquote ++ "tool-call" ++ dquote ++ ","
      ++ dquote ++ "toolName" ++ dquote ++ ":" ++ dquote ++ "searchWeb" ++ dquote ++ "}".
Definition finish_payload : string :=
  "{" ++ dquote ++ "type" ++ dquote ++ ":" ++ dquote ++ "finish" ++ dquote ++ ","
      ++ dquote ++ "finishReason" ++ dquote ++ ":" ++ dquote ++ "stop" ++ dquote ++ "}".

Definition tool_call_chunk : Chunk :=
  list_byte_of_string ("0:" ++ tool_call_payload ++ newline ++ "0:not json").
Definition ping_chunk : Chunk := list_byte_of_string ("data: ping" ++ newline).
Definition finish_chunk : Chunk := list_byte_of_string ("0:" ++ finish_payload ++ newline).

Definition streaming_host : Host :=
  {| URL_valid := fun _ => true;
     JSON_parse :=
       fun s =>
         if String.eqb s "{}" then Some (JObj [])
         else if String.eqb s tool_call_payload
              then Some (JObj [("type", JStr "tool-call"); ("toolName", JStr "searchWeb")])
         else if String.eqb s finish_payload
              then Some (JObj [("type", JStr "finish"); ("finishReason", JStr "stop")])
         else None;
     JSON_stringify := fun v => v;
     new_FirecrawlApp := fun _ => failing_adapter (ErrorObject "offline");
     validateUIMessages :=
       fun v => match v with
                | JArr xs => Return xs
                | _ => Throw (ErrorObject "messages must be an array")
                end;
     model := always_searching;
     system_prompt := "";
     choices := sample_choices;
     ui_stream := fun _ => [tool_call_chunk; ping_chunk; finish_chunk];
     ui_headers := fun _ => [("content-type", "text/event-stream")];
     TextDecoder_decode := fun value => Return (string_of_list_byte value);
     console_ok := fun args => match args with
                               | JStr "  Args:" :: _ => false
                               | _ => true
                               end;
     console_failure := fun _ => ErrorObject "console" |}.

Section HandlerClaims.

(** C3: without the model-provider key, [POST] answers status 400 with an
    [error] message, and its trace is empty: no model invocation and no
    tool call (nor anything else) takes place. *)
Theorem POST_without_credential (host : Host) (env : Env) (req : Request) :
  truthy_opt (OPENAI_API_KEY env) = false ->
  exists body,
    POST host env req = (Return (JsonResponse 400 body), [])
    /\ get "error" body = JStr "Set OPENAI_API_KEY to enable the chat."
    /\ Forall (fun e => is_model_call e = false /\ is_tool_call e = false)
         (EffM.trace (POST host env req)).
Proof.
  intros Hkey.
  assert (H : POST host env req
              = (Return (JsonResponse 400
                           (JObj [("error", JStr "Set OPENAI_API_KEY to enable the chat.")])),
                 [])).
  { unfold POST, handle. rewrite Hkey. reflexivity. }
  eexists. split; [exact H|]. split; [reflexivity|].
  rewrite H. constructor.
Qed.

(** C3, at a request with a well-formed body and no key in the
    environment. *)
Lemma POST_without_credential_witness :
  exists body,
    POST faulty_logging_host
      {| OPENAI_API_KEY := None; FIRECRAWL_API_KEY := Some "fc-key" |}
      {| body_text := "{}" |}
    = (Return (JsonResponse 400 body), [])
    /\ get "error" body = JStr "Set OPENAI_API_KEY to enable the chat.".
Proof.
  destruct (POST_without_credential faulty_logging_host
              {| OPENAI_API_KEY := None; FIRECRAWL_API_KEY := Some "fc-key" |}
              {| body_text := "{}" |} eq_refl) as [body [H [He _]]].
  exists body. split; [exact H|exact He].
Defined.

(** With the key present the same request does reach the model: the trace
    then holds the ten model invocations of the run. *)
Example POST_with_credential_invokes_model :
  List.length (List.filter is_model_call
                 (EffM.trace (POST faulty_logging_host keyed_env {| body_text := "{}" |})))
  = 10.
Proof. vm_compute. reflexivity. Qed.

(** C9: on a request that gets as far as the agent, both branches of the
    tee carry the source: the response [POST] returns holds the agent's
    chunks themselves, all of them and in order, and the reader of the
    logging branch is run on those same chunks, its console lines closing
    the trace.  The response is the same for any reader put in place of
    the route's, whatever that reader does or throws, so no failure on the
    logging branch alters what the client is sent.  When the chunks decode,
    the route's reader goes through every one of them: it writes what each
    non-blank line of each chunk gives, chunk after chunk. *)
Theorem client_branch_unaffected_by_logging
    (host : Host) (env : Env) (req : Request) (body given : jsval)
    (validated : list jsval) :
  truthy_opt (OPENAI_API_KEY env) = true ->
  JSON_parse host (body_text req) = Some body ->
  prop "messages" body = Return given ->
  validateUIMessages host
    (match given with JUndef | JNull => JArr [] | _ => given end) = Return validated ->
  Forall (fun args => console_ok host args = true) (announced host validated) ->
  let response :=
    chatAgent.respond (system_prompt host) (model host) (choices host)
      (URL_valid host) (firecrawl host env) validated in
  let source := ui_stream host response in
  tee source = (source, source)
  /\ POST host env req
     = (Return (StreamResponse (ui_headers host response) source),
        ((ConsoleLog <$> announced host validated)
         ++ chatAgent.events response
         ++ EffM.trace (Logging.run host source))%list)
  /\ (forall logger : list Chunk -> Eff unit,
        handle logger host env req
        = (Return (StreamResponse (ui_headers host response) source),
           ((ConsoleLog <$> announced host validated)
            ++ chatAgent.events response
            ++ EffM.trace (logger source))%list))
  /\ (forall chunks : list string,
        Forall2 (fun value chunk => TextDecoder_decode host value = Return chunk)
          source chunks ->
        Logging.run host source
        = (Return tt,
           concat ((fun chunk =>
                      concat ((fun line => EffM.trace (Logging.on_line host line))
                                <$> List.filter trim_truthy (split_newline chunk)))
                     <$> chunks))).
Proof.
  intros Hkey Hp Hg Hv Hok response source.
  split; [reflexivity|]. split; [|split].
  - unfold POST. exact (handle_streams (Logging.run host) host env req body given
                          validated Hkey Hp Hg Hv Hok).
  - intros logger.
    exact (handle_streams logger host env req body given validated Hkey Hp Hg Hv Hok).
  - intros chunks Hd. exact (logging_run_decoded host source chunks Hd).
Qed.

(** C9, at a stream of three chunks.  The first holds a tool-call event
    (whose arguments line the console refuses) and a line that is not JSON,
    the second no event at all, the third a finish event.  The client gets
    the three chunks; the reader has written the lines of both events and
    gone past both failures. *)
Lemma client_branch_unaffected_by_logging_witness :
  POST streaming_host keyed_env {| body_text := "{}" |}
  = (Return (StreamResponse [("content-type", "text/event-stream")]
               [tool_call_chunk; ping_chunk; finish_chunk]),
     ((ConsoleLog <$> announced streaming_host [])
      ++ chatAgent.events
           (chatAgent.respond "" always_searching sample_choices (fun _ => true) None [])
      ++ [ConsoleLog [JStr (newline ++ "🔧 Tool Call:")];
          ConsoleLog [JStr "  Tool:"; JStr "searchWeb"];
          ConsoleLog [JStr (newline ++ "=== Agent Finished ===")];
          ConsoleLog [JStr "Reason:"; JStr "stop"];
          ConsoleLog [JStr ("======================" ++ newline)]])%list).
Proof.
  assert (Hok : Forall (fun args => console_ok streaming_host args = true)
                  (announced streaming_host [])) by (repeat constructor).
  destruct (client_branch_unaffected_by_logging streaming_host keyed_env
              {| body_text := "{}" |} (JObj []) JUndef [] eq_refl eq_refl eq_refl eq_refl Hok)
    as [_ [HP _]].
  rewrite HP. reflexivity.
Defined.

(** The route's own reader can fail outright, and the client still gets
    the three chunks of the source: here every chunk fails to decode and
    the console refuses the report, so the reader ends by throwing. *)
Example logging_failure_leaves_client_stream :
  EffM.outcome (Logging.run faulty_logging_host
                  (ui_stream faulty_logging_host (chatAgent.init [])))
  = Throw (ErrorObject "console")
  /\ EffM.outcome (POST faulty_logging_host keyed_env {| body_text := "{}" |})
     = Return (StreamResponse [("content-type", "text/event-stream")]
                 [[Byte.x48]; [Byte.x49]; [Byte.x4a]]).
Proof. split; vm_compute; reflexivity. Qed.

End HandlerClaims.

(* ===================================================================== *)
(** * Further properties of the route                                    *)
(* ===================================================================== *)

(** ** The tools, beyond their failure paths *)

Section MoreToolFacts.

Import searchWebTool.

Lemma firecrawl_unset (host : Host) (env : Env) :
  truthy_opt (FIRECRAWL_API_KEY env) = false -> firecrawl host env = None.
Proof.
  intros Hkey. unfold firecrawl.
  destruct (FIRECRAWL_API_KEY env) as [key|]; [|reflexivity].
  simpl in Hkey. rewrite Hkey. reflexivity.
Qed.

Lemma scrape_execute_resolved (app : FirecrawlApp) (u : string)
    (data : FirecrawlScrapeResponse) :
  scrape app u ["markdown"] = Return data ->
  let markdown :=
    nullish (match fsr_markdown data with
             | Some m => Some m
             | None => fsr_content data
             end) "" in
  let title := nullish (fsr_metadata data ≫= sm_title) "" in
  let heading := if truthy title then title else u in
  scrapeWebsiteTool.execute (Some app) u
  = (Return (JObj [("url", JStr u); ("title", JStr heading);
                   ("content", JStr ("# " ++ heading ++ newline ++ newline ++ markdown))]),
     [FirecrawlScrape u ["markdown"]]).
Proof.
  intros H.
  unfold scrapeWebsiteTool.execute, scrapeWebsiteTool.call_scrape,
    EffM.try_catch, EffM.bind, EffM.emit, EffM.lift.
  rewrite H. reflexivity.
Qed.

(** X1: with no Firecrawl key, [scrapeWebsite] answers with a placeholder
    that names the missing key and the URL it could not fetch; it does not
    throw and calls nothing. *)
Theorem scrape_without_adapter (host : Host) (env : Env) (u : string) :
  truthy_opt (FIRECRAWL_API_KEY env) = false ->
  exists out,
    scrapeWebsiteTool.execute (firecrawl host env) u = (Return out, [])
    /\ get "url" out = JStr u
    /\ get "title" out = JStr "Firecrawl key missing"
    /\ get "content" out
       = JStr ("FIRECRAWL_API_KEY is not configured. Unable to scrape " ++ u ++ ".").
Proof.
  intros Hkey. rewrite (firecrawl_unset host env Hkey).
  eexists. split; [reflexivity|]. repeat split.
Qed.

Lemma scrape_without_adapter_witness :
  exists out,
    scrapeWebsiteTool.execute
      (firecrawl silent_host {| OPENAI_API_KEY := Some "sk"; FIRECRAWL_API_KEY := Some "" |})
      "https://example.com" = (Return out, [])
    /\ get "content" out
       = JStr "FIRECRAWL_API_KEY is not configured. Unable to scrape https://example.com.".
Proof.
  destruct (scrape_without_adapter silent_host
              {| OPENAI_API_KEY := Some "sk"; FIRECRAWL_API_KEY := Some "" |}
              "https://example.com" eq_refl) as [out [H [_ [_ Hc]]]].
  exists out. split; [exact H|exact Hc].
Defined.

(** X2: a scrape that resolves returns the page under a heading: [title]
    is the page's own title when it has a non-empty one and the URL
    otherwise, so it is non-empty whenever the URL is; [content] is
    ["# "], that same title, a blank line, and the page's [markdown] (its
    [content] when [markdown] is absent, nothing when both are). *)
Theorem scrape_success_heading (app : FirecrawlApp) (u : string)
    (data : FirecrawlScrapeResponse) :
  scrape app u ["markdown"] = Return data ->
  exists out title body,
    EffM.outcome (scrapeWebsiteTool.execute (Some app) u) = Return out
    /\ get "url" out = JStr u
    /\ get "title" out = JStr title
    /\ get "content" out = JStr ("# " ++ title ++ newline ++ newline ++ body)
    /\ (truthy u = true -> truthy title = true)
    /\ (forall t, fsr_metadata data ≫= sm_title = Some t -> truthy t = true -> title = t)
    /\ (truthy_opt (fsr_metadata data ≫= sm_title) = false -> title = u)
    /\ body = match fsr_markdown data, fsr_content data with
              | Some m, _ => m
              | None, Some c => c
              | None, None => ""
              end.
Proof.
  intros H. rewrite (scrape_execute_resolved app u data H).
  eexists. eexists. eexists. split; [reflexivity|].
  split; [reflexivity|]. split; [reflexivity|]. split; [reflexivity|].
  split; [|split; [|split]].
  - intros Hu. destruct (truthy (nullish (fsr_metadata data ≫= sm_title) "")) eqn:E;
      [exact E|exact Hu].
  - intros t Ht Htt. rewrite Ht. simpl. rewrite Htt. reflexivity.
  - intros Hf. destruct (fsr_metadata data ≫= sm_title) as [t|]; simpl in *.
    + rewrite Hf. reflexivity.
    + reflexivity.
  - destruct (fsr_markdown data), (fsr_content data); reflexivity.
Qed.

Definition titled_page : FirecrawlScrapeResponse :=
  {| fsr_url := None; fsr_markdown := Some "Body text."; fsr_content := None;
     fsr_metadata := Some {| sm_title := Some "Example Domain" |} |}.

Lemma scrape_success_heading_witness :
  exists out,
    EffM.outcome (scrapeWebsiteTool.execute
                    (Some {| scrape := fun _ _ => Return titled_page;
                             search := fun _ _ => Throw (ErrorObject "not used") |})
                    "https://example.com") = Return out
    /\ get "title" out = JStr "Example Domain"
    /\ get "content" out
       = JStr ("# Example Domain" ++ newline ++ newline ++ "Body text.").
Proof.
  destruct (scrape_success_heading
              {| scrape := fun _ _ => Return titled_page;
                 search := fun _ _ => Throw (ErrorObject "not used") |}
              "https://example.com" titled_page eq_refl)
    as [out [title [body [H [_ [Ht [Hc [_ [Hpage [_ Hb]]]]]]]]]].
  exists out. split; [exact H|].
  assert (E : title = "Example Domain") by (apply Hpage; reflexivity).
  subst title body. split; [exact Ht|exact Hc].
Defined.

Lemma scrape_trace_exact (app : FirecrawlApp) (u : string) :
  EffM.trace (scrapeWebsiteTool.execute (Some app) u) = [FirecrawlScrape u ["markdown"]].
Proof.
  destruct (scrape app u ["markdown"]) as [data|e] eqn:H.
  - rewrite (scrape_execute_resolved app u data H). reflexivity.
  - rewrite (scrape_execute_rejected app u e H). reflexivity.
Qed.

Lemma search_trace_exact (app : FirecrawlApp) (i : Input) :
  EffM.trace (execute (Some app) i) = [FirecrawlSearch (query i) (build_options i)].
Proof.
  destruct (search app (query i) (build_options i)) as [response|e] eqn:H.
  - rewrite (search_execute_resolved app i response H). reflexivity.
  - rewrite (search_execute_rejected app i e H). reflexivity.
Qed.

(** X3: one [execute], at most one adapter call.  Without adapter there is
    none; with one there is exactly one, for the URL or query received,
    whether it resolves or throws: a failure is not retried. *)
Theorem execute_calls_adapter_once
    (firecrawl : option FirecrawlApp) (u : string) (i : Input) :
  EffM.trace (scrapeWebsiteTool.execute firecrawl u)
  = match firecrawl with
    | None => []
    | Some _ => [FirecrawlScrape u ["markdown"]]
    end
  /\ EffM.trace (execute firecrawl i)
     = match firecrawl with
       | None => []
       | Some _ => [FirecrawlSearch (query i) (build_options i)]
       end.
Proof.
  destruct firecrawl as [app|]; [|split; reflexivity].
  split; [apply scrape_trace_exact|apply search_trace_exact].
Qed.

End MoreToolFacts.

Section MoreSearchFacts.

Import searchWebTool.

(** What an accepted input says about the raw object it was read from. *)
Lemma inputSchema_accepted (v : jsval) (i : Input) :
  inputSchema v = Some i ->
  get "query" v = JStr (query i)
  /\ 3 <= str_length (query i)
  /\ (1 <= limit i <= 10)%Z
  /\ (get "limit" v = JUndef -> limit i = 5%Z)
  /\ get "tbs" v = of_opt_string (tbs i)
  /\ get "location" v = of_opt_string (location i).
Proof.
  unfold inputSchema, Zod.object_, Zod.field. intros H.
  destruct v as [| |b|q|s|xs|fields]; try discriminate H.
  cbn [mbind option_bind get] in H |- *.
  destruct (Zod.min_length 3 Zod.string_ (lookup_field "query" fields)) as [s|] eqn:Hq;
    [|discriminate H].
  cbn [mbind option_bind] in H.
  destruct (Zod.default 5%Z (Zod.max 10 (Zod.min 1 (Zod.int Zod.number)))
              (lookup_field "limit" fields)) as [l|] eqn:Hl; [|discriminate H].
  cbn [mbind option_bind] in H.
  destruct (Zod.optional Zod.string_ (lookup_field "tbs" fields)) as [t|] eqn:Ht;
    [|discriminate H].
  cbn [mbind option_bind] in H.
  destruct (Zod.optional Zod.string_ (lookup_field "location" fields)) as [loc|] eqn:Hloc;
    [|discriminate H].
  cbn [mbind option_bind] in H.
  destruct (Zod.optional _ (lookup_field "categories" fields)) as [c|]; [|discriminate H].
  cbn [mbind option_bind] in H.
  destruct (Zod.optional _ (lookup_field "sources" fields)) as [ss|]; [|discriminate H].
  cbn [mbind option_bind] in H.
  assert (Hquery : lookup_field "query" fields = JStr s /\ (3 <=? str_length s)%nat = true).
  { unfold Zod.min_length, Zod.string_ in Hq.
    destruct (lookup_field "query" fields) as [| |b|q|s0|xs|fs]; try discriminate Hq.
    cbn [mbind option_bind] in Hq.
    destruct (3 <=? str_length s0)%nat eqn:E; [|discriminate Hq].
    injection Hq as <-. split; [reflexivity|exact E]. }
  destruct Hquery as [Hqs Hlen]. rewrite Hqs.
  injection H as <-. cbn [query limit tbs location].
  split; [reflexivity|]. split; [apply Nat.leb_le; exact Hlen|].
  assert (Hopt : forall x o, Zod.optional Zod.string_ x = Some o -> x = of_opt_string o).
  { intros x o Hx. unfold Zod.optional, Zod.string_ in Hx.
    destruct x; simpl in Hx; try discriminate Hx; injection Hx as <-; reflexivity. }
  split; [|split; [|split; [exact (Hopt _ _ Ht)|exact (Hopt _ _ Hloc)]]].
  - unfold Zod.default, Zod.max, Zod.min, Zod.int, Zod.number in Hl.
    destruct (lookup_field "limit" fields) as [| |b|q|s'|xs|fs]; try discriminate Hl.
    + injection Hl as <-. lia.
    + cbn [mbind option_bind] in Hl.
      destruct (is_integer q); [|discriminate Hl]. cbn [mbind option_bind] in Hl.
      destruct (1 <=? to_Z q)%Z eqn:H1; [|discriminate Hl]. cbn [mbind option_bind] in Hl.
      destruct (to_Z q <=? 10)%Z eqn:H2; [|discriminate Hl].
      injection Hl as <-. apply Z.leb_le in H1. apply Z.leb_le in H2. lia.
  - intros Hu. rewrite Hu in Hl. injection Hl as <-. reflexivity.
Qed.

(** X4: what reaches the adapter for an accepted input.  The search is
    called once, with the query as given (3 characters at least), a limit
    from 1 to 10 (5 when none was given), markdown as the only format, and
    a filter only where one was given and is non-empty: an omitted or empty
    [tbs] or [location], and an omitted or empty [categories] or [sources]
    array, are left out of the options. *)
Theorem search_adapter_receives_validated_input
    (app : FirecrawlApp) (v : jsval) (i : Input) :
  inputSchema v = Some i ->
  exists options,
    EffM.trace (execute (Some app) i) = [FirecrawlSearch (query i) options]
    /\ get "query" v = JStr (query i)
    /\ 3 <= str_length (query i)
    /\ (1 <= opt_limit options <= 10)%Z
    /\ (get "limit" v = JUndef -> opt_limit options = 5%Z)
    /\ opt_formats options = ["markdown"]
    /\ (forall t, opt_tbs options = Some t -> truthy t = true /\ get "tbs" v = JStr t)
    /\ (get "tbs" v = JUndef \/ get "tbs" v = JStr "" -> opt_tbs options = None)
    /\ (forall l, opt_location options = Some l ->
                  truthy l = true /\ get "location" v = JStr l)
    /\ (get "location" v = JUndef \/ get "location" v = JStr "" ->
        opt_location options = None)
    /\ (forall cs, opt_categories options = Some cs -> cs <> [] /\ categories i = Some cs)
    /\ (forall ss, opt_sources options = Some ss -> ss <> [] /\ sources i = Some ss).
Proof.
  intros Hv.
  destruct (inputSchema_accepted v i Hv) as [Hq [Hlen [Hlim [Hdef [Ht Hl]]]]].
  exists (build_options i).
  split; [apply search_trace_exact|].
  split; [exact Hq|]. split; [exact Hlen|]. split; [exact Hlim|].
  split; [exact Hdef|]. split; [reflexivity|].
  assert (Hsome : forall (o : option string) (x : jsval) (t : string),
             x = of_opt_string o ->
             (if truthy_opt o then o else None) = Some t ->
             truthy t = true /\ x = JStr t).
  { intros o x t -> H. destruct o as [s|]; simpl in H; [|discriminate H].
    destruct (truthy s) eqn:E; [|discriminate H]. injection H as <-.
    split; [exact E|reflexivity]. }
  assert (Hnone : forall (o : option string) (x : jsval),
             x = of_opt_string o ->
             x = JUndef \/ x = JStr "" ->
             (if truthy_opt o then o else None) = None).
  { intros o x -> [H|H]; destruct o as [s|]; simpl in H; try discriminate H;
      try reflexivity. injection H as ->. reflexivity. }
  assert (Harr : forall (A : Type) (o : option (list A)) (xs : list A),
             non_empty o = Some xs -> xs <> [] /\ o = Some xs).
  { intros A o xs H. destruct o as [[|y ys]|]; simpl in H; try discriminate H.
    injection H as <-. split; [discriminate|reflexivity]. }
  cbn [build_options opt_tbs opt_location opt_categories opt_sources].
  split; [intros t; apply (Hsome _ _ _ Ht)|].
  split; [apply (Hnone _ _ Ht)|].
  split; [intros l; apply (Hsome _ _ _ Hl)|].
  split; [apply (Hnone _ _ Hl)|].
  split; [intros cs; apply Harr|intros ss; apply Harr].
Qed.

Lemma search_adapter_receives_validated_input_witness :
  let i := {| query := "valid query"; limit := 5; tbs := Some ""; location := None;
              categories := None; sources := None |} in
  exists options,
    EffM.trace (execute (Some (failing_adapter (ErrorObject "offline"))) i)
    = [FirecrawlSearch "valid query" options]
    /\ opt_limit options = 5%Z
    /\ opt_tbs options = None.
Proof.
  intros i.
  destruct (search_adapter_receives_validated_input
              (failing_adapter (ErrorObject "offline"))
              (JObj [("query", JStr "valid query"); ("tbs", JStr "")])
              i eq_refl)
    as [options [H [_ [_ [_ [Hd [_ [_ [Hn _]]]]]]]]].
  exists options. split; [exact H|]. split; [apply Hd; reflexivity|].
  apply Hn. right. reflexivity.
Defined.

End MoreSearchFacts.

Section SearchResultFacts.

Import searchWebTool.

Lemma or_else_truthy (o : option string) (d : string) :
  truthy d = true -> truthy (or_else o d) = true.
Proof.
  intros Hd. unfold or_else. destruct o as [s|]; [|exact Hd].
  destruct (truthy s) eqn:E; [exact E|exact Hd].
Qed.

Lemma or_opt_falsy (a b : option string) :
  truthy_opt a = false -> or_opt a b = b.
Proof.
  intros Ha. unfold or_opt. destruct a as [s|]; [|reflexivity].
  simpl in Ha. rewrite Ha. reflexivity.
Qed.

(** The first of the candidates that is there and non-empty, and the
    default when there is none. *)
Fixpoint first_non_empty (candidates : list (option string)) (default : string) : string :=
  match candidates with
  | [] => default
  | Some s :: rest => if truthy s then s else first_non_empty rest default
  | None :: rest => first_non_empty rest default
  end.

Lemma title_chain (a b c : option string) (d : string) :
  or_else (or_opt (or_opt a b) c) d = first_non_empty [a; b; c] d.
Proof.
  unfold or_else, or_opt. cbn [first_non_empty].
  destruct a as [x|], b as [y|], c as [z|];
    repeat (match goal with
            | H : truthy ?s = _ |- context [truthy ?s] => rewrite H
            | |- context [truthy ?s] => destruct (truthy s) eqn:?
            end);
    reflexivity.
Qed.

(** X5: every entry of [results] has a title.  Entry by entry, in the
    adapter's order, a result keeps the URL of the item it comes from and
    is titled by the first non-empty one of the item's metadata title, its
    own title and its URL, in that order of precedence, and ["Untitled"]
    when all three are missing or empty; so a title is never empty. *)
Theorem search_results_are_titled (response : SearchResponse) :
  Forall2 (fun item r =>
             url r = item_url item
             /\ title r
                = first_non_empty [item_metadata item ≫= im_title; item_title item;
                                   Some (item_url item)] "Untitled"
             /\ truthy (title r) = true)
    (webResults response) (results_of response).
Proof.
  unfold results_of. apply Forall2_fmap_r. apply Forall_Forall2_diag.
  apply Forall_forall. intros item _.
  split; [reflexivity|]. split; [|apply or_else_truthy; reflexivity].
  unfold to_result; cbn [title]. apply title_chain.
Qed.

(** X5, at three items: one with a metadata title and a title, one with a
    title only, one with nothing but an empty URL. *)
Example search_results_are_titled_example :
  title <$> results_of
    {| web := Some [{| item_url := "https://a.example"; item_title := Some "Own title";
                       item_markdown := None; item_description := None;
                       item_metadata := Some {| im_title := Some "Page title";
                                                im_publishedTime := None |};
                       item_category := None |};
                    {| item_url := "https://b.example"; item_title := Some "Own title";
                       item_markdown := None; item_description := None;
                       item_metadata := Some {| im_title := Some "";
                                                im_publishedTime := None |};
                       item_category := None |};
                    {| item_url := ""; item_title := None;
                       item_markdown := None; item_description := None;
                       item_metadata := None; item_category := None |}];
       news := None; images := None |}
  = ["Page title"; "Own title"; "Untitled"].
Proof. reflexivity. Qed.

(** X6: the [parameters] echoed by a resolved search are always filled
    in: [tbs] and [location] are non-empty strings, ["none"] and
    ["global"] standing for a filter that was omitted or empty, and
    [categories] and [sources] are arrays, [[]] and [["web"]] standing for
    an omitted one. *)
Theorem search_success_parameters_filled
    (app : FirecrawlApp) (i : Input) (response : SearchResponse) :
  search app (query i) (build_options i) = Return response ->
  exists out t l cs ss,
    EffM.outcome (execute (Some app) i) = Return out
    /\ get "parameters" out
       = JObj [("tbs", JStr t); ("location", JStr l);
               ("categories", JArr (category_js <$> cs));
               ("sources", JArr (source_js <$> ss))]
    /\ truthy t = true /\ truthy l = true
    /\ (truthy_opt (tbs i) = false -> t = "none")
    /\ (truthy_opt (location i) = false -> l = "global")
    /\ (forall x, tbs i = Some x -> truthy x = true -> t = x)
    /\ (forall x, location i = Some x -> truthy x = true -> l = x)
    /\ cs = match categories i with Some xs => xs | None => [] end
    /\ ss = match sources i with Some xs => xs | None => [SrcWeb] end.
Proof.
  intros H. rewrite (search_execute_resolved app i response H).
  exists (success i response), (or_else (tbs i) "none"), (or_else (location i) "global"),
    (nullish (categories i) []), (nullish (sources i) [SrcWeb]).
  split; [reflexivity|]. split; [reflexivity|].
  split; [apply or_else_truthy; reflexivity|].
  split; [apply or_else_truthy; reflexivity|].
  assert (Hdef : forall o d, truthy_opt o = false -> or_else o d = d).
  { intros o d Ho. destruct o as [s|]; simpl in *; [rewrite Ho|]; reflexivity. }
  assert (Hkeep : forall o d x, o = Some x -> truthy x = true -> or_else o d = x).
  { intros o d x -> Hx. simpl. rewrite Hx. reflexivity. }
  split; [apply Hdef|]. split; [apply Hdef|].
  split; [intros x; apply Hkeep|]. split; [intros x; apply Hkeep|].
  split; reflexivity.
Qed.

Lemma search_success_parameters_filled_witness :
  exists out,
    EffM.outcome (execute (Some (answering_adapter
                                   {| web := None; news := None; images := None |}))
                    sample_input) = Return out
    /\ get "parameters" out
       = JObj [("tbs", JStr "none"); ("location", JStr "global");
               ("categories", JArr []); ("sources", JArr [JStr "web"])].
Proof.
  destruct (search_success_parameters_filled
              (answering_adapter {| web := None; news := None; images := None |})
              sample_input {| web := None; news := None; images := None |} eq_refl)
    as [out [t [l [cs [ss [H [Hp [_ [_ [Ht [Hl [_ [_ [Hc Hs]]]]]]]]]]]]]].
  exists out. split; [exact H|].
  rewrite Hp, (Ht eq_refl), (Hl eq_refl), Hc, Hs. reflexivity.
Defined.

Lemma summary_lines_bulleted (f : nat -> Result -> string) (results : list Result) :
  (forall n r, exists rest, f n r = "- " ++ title r ++ rest) ->
  Forall2 (fun r line => exists rest, line = "- " ++ title r ++ rest)
    results (imap f results).
Proof.
  revert f. induction results as [|r results IH]; intros f Hf; simpl; constructor.
  - apply Hf.
  - apply IH. intros n r'. apply Hf.
Qed.

(** X7: the [content] of a resolved search is a markdown summary: a
    heading that quotes the query, then either the line
    ["- No results found."] or one line per entry, in order and separated
    by newlines, each starting with ["- "] and the entry's title. *)
Theorem search_content_is_bulleted_summary
    (app : FirecrawlApp) (i : Input) (response : SearchResponse) :
  search app (query i) (build_options i) = Return response ->
  exists out lines,
    EffM.outcome (execute (Some app) i) = Return out
    /\ get "content" out
       = JStr (("### Search results for " ++ dquote ++ query i ++ dquote ++ newline)
               ++ match lines with
                  | [] => "- No results found."
                  | _ :: _ => join newline lines
                  end)
    /\ Forall2 (fun r line => exists rest, line = "- " ++ title r ++ rest)
         (results_of response) lines.
Proof.
  intros H. rewrite (search_execute_resolved app i response H).
  exists (success i response), (imap summary_line (results_of response)).
  split; [reflexivity|]. split.
  - cbn [success get lookup_field String.eqb Ascii.eqb Bool.eqb].
    unfold summary_of, heading, no_results_notice.
    destruct (imap summary_line (results_of response)); reflexivity.
  - apply summary_lines_bulleted. intros n r. eexists.
    unfold summary_line. cbn [nullish]. reflexivity.
Qed.

Lemma search_content_is_bulleted_summary_witness :
  exists out,
    EffM.outcome (execute (Some (answering_adapter
                                   {| web := Some []; news := None; images := None |}))
                    sample_input) = Return out
    /\ get "content" out
       = JStr (("### Search results for " ++ dquote ++ "valid query" ++ dquote ++ newline)
               ++ "- No results found.").
Proof.
  destruct (search_content_is_bulleted_summary
              (answering_adapter {| web := Some []; news := None; images := None |})
              sample_input {| web := Some []; news := None; images := None |} eq_refl)
    as [out [lines [H [Hc Hl]]]].
  exists out. split; [exact H|]. inversion Hl; subst. exact Hc.
Defined.

End SearchResultFacts.

(** ** The structured-output schema, field by field *)

Section MoreSchemaFacts.

Definition scout_fields : list string :=
  ["taskCompleted"; "taskStatus"; "message"; "findings"; "searchStrategies"; "nextSteps"].

Lemma lookup_field_other (k k' : string) (x : jsval) (fields : list (string * jsval)) :
  k' <> k -> lookup_field k' ((k, x) :: fields) = lookup_field k' fields.
Proof.
  intros Hne. cbn [lookup_field].
  destruct (String.eqb k' k) eqn:E; [|reflexivity].
  apply String.eqb_eq in E. contradiction.
Qed.

(** X8: each of the six fields is required.  A candidate that is not an
    object, or that lacks any one of [taskCompleted], [taskStatus],
    [message], [findings], [searchStrategies] and [nextSteps], is rejected;
    [nextSteps] in particular may be [null] but may not be left out. *)
Theorem scoutResponseSchema_requires_every_field (v : jsval) (k : string) :
  In k scout_fields ->
  get k v = JUndef ->
  scoutResponseSchema v = None.
Proof.
  intros Hin Hk. unfold scoutResponseSchema, Zod.object_, Zod.field.
  destruct v as [| |b|q|s|xs|fields]; try reflexivity.
  cbn [get] in Hk. cbn [mbind option_bind].
  destruct (Zod.boolean (lookup_field "taskCompleted" fields)) as [tc|] eqn:H1;
    [|reflexivity]. cbn [mbind option_bind].
  destruct (Zod.enum _ (lookup_field "taskStatus" fields)) as [ts|] eqn:H2;
    [|reflexivity]. cbn [mbind option_bind].
  destruct (Zod.string_ (lookup_field "message" fields)) as [m|] eqn:H3;
    [|reflexivity]. cbn [mbind option_bind].
  destruct (Zod.array findingSchema (lookup_field "findings" fields)) as [f|] eqn:H4;
    [|reflexivity]. cbn [mbind option_bind].
  destruct (Zod.array Zod.string_ (lookup_field "searchStrategies" fields)) as [ss|] eqn:H5;
    [|reflexivity]. cbn [mbind option_bind].
  destruct (Zod.nullable Zod.string_ (lookup_field "nextSteps" fields)) as [ns|] eqn:H6;
    [|reflexivity].
  exfalso. unfold scout_fields in Hin. cbn [In] in Hin.
  destruct Hin as [<-|[<-|[<-|[<-|[<-|[<-|[]]]]]]]; rewrite Hk in *; discriminate.
Qed.

Lemma scoutResponseSchema_requires_every_field_witness :
  scoutResponseSchema
    (JObj [("taskCompleted", JBool false); ("taskStatus", JStr "not_found");
           ("message", JStr "nothing yet"); ("findings", JArr []);
           ("searchStrategies", JArr [])])
  = None.
Proof.
  apply (scoutResponseSchema_requires_every_field _ "nextSteps");
    [right; right; right; right; right; left; reflexivity|reflexivity].
Defined.

(** X9: keys outside the six are dropped, not rejected: putting any other
    key on a candidate changes neither whether it is accepted nor the
    result it is read as. *)
Theorem scoutResponseSchema_ignores_other_keys
    (k : string) (x : jsval) (fields : list (string * jsval)) :
  ~ In k scout_fields ->
  scoutResponseSchema (JObj ((k, x) :: fields)) = scoutResponseSchema (JObj fields).
Proof.
  intros Hk.
  assert (Hne : forall k', In k' scout_fields -> k' <> k).
  { intros k' Hin ->. exact (Hk Hin). }
  unfold scoutResponseSchema, Zod.object_, Zod.field. cbn [mbind option_bind].
  rewrite !lookup_field_other; [reflexivity| | | | | |];
    apply Hne; unfold scout_fields; cbn [In]; auto 10.
Qed.

Lemma scoutResponseSchema_ignores_other_keys_witness :
  scoutResponseSchema
    (JObj [("debug", JStr "trace"); ("taskCompleted", JBool false);
           ("taskStatus", JStr "not_found"); ("message", JStr "nothing yet");
           ("findings", JArr []); ("searchStrategies", JArr []); ("nextSteps", JNull)])
  = Some {| taskCompleted := false; taskStatus := not_found; message := "nothing yet";
            findings := []; searchStrategies := []; nextSteps := None |}.
Proof.
  rewrite (scoutResponseSchema_ignores_other_keys "debug" (JStr "trace")).
  - reflexivity.
  - unfold scout_fields; cbn [In]. intros H.
    repeat (destruct H as [H|H]; [discriminate H|]). exact H.
Defined.

End MoreSchemaFacts.

(** ** The request handler, past the credential check *)

(** A host that reads three request bodies: [{}], [{"messages":[]}] and
    [{"messages":7}]; everything else is not JSON to it. *)
Definition empty_messages_text : string :=
  "{" ++ dquote ++ "messages" ++ dquote ++ ":[]}".
Definition bad_messages_text : string :=
  "{" ++ dquote ++ "messages" ++ dquote ++ ":7}".

Definition reading_host : Host :=
  {| URL_valid := URL_valid faulty_logging_host;
     JSON_parse :=
       fun s =>
         if String.eqb s "{}" then Some (JObj [])
         else if String.eqb s empty_messages_text then Some (JObj [("messages", JArr [])])
         else if String.eqb s bad_messages_text then Some (JObj [("messages", JNum 7)])
         else None;
     JSON_stringify := JSON_stringify faulty_logging_host;
     new_FirecrawlApp := new_FirecrawlApp faulty_logging_host;
     validateUIMessages := validateUIMessages faulty_logging_host;
     model := model faulty_logging_host;
     system_prompt := system_prompt faulty_logging_host;
     choices := choices faulty_logging_host;
     ui_stream := ui_stream faulty_logging_host;
     ui_headers := ui_headers faulty_logging_host;
     TextDecoder_decode := TextDecoder_decode faulty_logging_host;
     console_ok := console_ok faulty_logging_host;
     console_failure := console_failure faulty_logging_host |}.

Section MoreHandlerFacts.

(** X10: a body that is not JSON is answered with status 400 and the
    message ["Invalid JSON payload."]; nothing has been logged, and neither
    the model nor a tool has been called. *)
Theorem POST_malformed_json (host : Host) (env : Env) (req : Request) :
  truthy_opt (OPENAI_API_KEY env) = true ->
  JSON_parse host (body_text req) = None ->
  POST host env req
  = (Return (JsonResponse 400 (JObj [("error", JStr "Invalid JSON payload.")])), []).
Proof.
  intros Hkey Hparse. unfold POST, handle. rewrite Hkey, Hparse. reflexivity.
Qed.

Lemma POST_malformed_json_witness :
  POST reading_host keyed_env {| body_text := "{ messages: " |}
  = (Return (JsonResponse 400 (JObj [("error", JStr "Invalid JSON payload.")])), []).
Proof. apply POST_malformed_json; reflexivity. Defined.

Lemma prop_of_value (k : string) (body : jsval) :
  body <> JNull -> body <> JUndef -> prop k body = Return (get k body).
Proof. intros H1 H2. destruct body; try reflexivity; contradiction. Qed.

(** X11: a body without [messages], or with [messages: null], is handled
    exactly as one with [messages: []]: same response, same calls. *)
Theorem POST_missing_messages_as_empty
    (host : Host) (env : Env) (req req' : Request) (body : jsval) :
  JSON_parse host (body_text req) = Some body ->
  body <> JNull -> body <> JUndef ->
  get "messages" body = JUndef \/ get "messages" body = JNull ->
  JSON_parse host (body_text req') = Some (JObj [("messages", JArr [])]) ->
  POST host env req = POST host env req'.
Proof.
  intros Hp Hn Hu Hm Hp'. unfold POST, handle.
  destruct (negb (truthy_opt (OPENAI_API_KEY env))); [reflexivity|].
  rewrite Hp, Hp', (prop_of_value "messages" body Hn Hu).
  destruct Hm as [-> | ->]; reflexivity.
Qed.

Lemma POST_missing_messages_as_empty_witness :
  POST reading_host keyed_env {| body_text := "{}" |}
  = POST reading_host keyed_env {| body_text := empty_messages_text |}.
Proof.
  apply (POST_missing_messages_as_empty reading_host keyed_env _ _ (JObj []));
    try reflexivity; try discriminate. left. reflexivity.
Defined.

(** X12: when [validateUIMessages] rejects the messages, [POST] rejects
    with that same error, before anything is logged and before the model
    or a tool is called. *)
Theorem POST_rejects_invalid_messages_first
    (host : Host) (env : Env) (req : Request) (body given : jsval) (e : Thrown) :
  truthy_opt (OPENAI_API_KEY env) = true ->
  JSON_parse host (body_text req) = Some body ->
  prop "messages" body = Return given ->
  validateUIMessages host
    (match given with JUndef | JNull => JArr [] | _ => given end) = Throw e ->
  POST host env req = (Throw e, []).
Proof.
  intros Hkey Hp Hg Hv. unfold POST, handle. rewrite Hkey, Hp, Hg.
  unfold EffM.bind at 1. unfold EffM.lift at 1.
  cbv zeta. unfold EffM.bind at 1. unfold EffM.lift at 1. rewrite Hv. reflexivity.
Qed.

Lemma POST_rejects_invalid_messages_first_witness :
  POST reading_host keyed_env {| body_text := bad_messages_text |}
  = (Throw (ErrorObject "messages must be an array"), []).
Proof.
  apply (POST_rejects_invalid_messages_first reading_host keyed_env _
           (JObj [("messages", JNum 7)]) (JNum 7)); reflexivity.
Defined.

End MoreHandlerFacts.

(** ** The background reader of the logging branch *)

Section MoreLoggingFacts.

(** X13: what the reader passes over in silence.  A line that does not
    start with ["0:"], a line whose payload is not JSON, and a payload that
    is [null] or whose [type] is not a string, each leave the console
    untouched and let the reader go on to the next line. *)
Theorem logging_passes_over_other_lines (host : Host) (line : string) :
  startsWith "0:" line = false
  \/ JSON_parse host (slice_from 2 line) = None
  \/ (exists data,
        JSON_parse host (slice_from 2 line) = Some data
        /\ (data = JNull \/ forall s, get "type" data <> JStr s)) ->
  Logging.on_line host line = (Return tt, []).
Proof.
  intros H. unfold Logging.on_line.
  destruct (startsWith "0:" line) eqn:Hs.
  - destruct H as [H|[H|[data [Hp Hd]]]]; [discriminate H|rewrite H; reflexivity|].
    rewrite Hp. destruct Hd as [->|Hty]; [reflexivity|].
    unfold Logging.on_event.
    destruct data as [| |b|q|s|xs|fields]; try reflexivity.
    cbn [prop get] in Hty |- *. unfold EffM.bind at 1, EffM.lift at 1.
    destruct (lookup_field "type" fields) as [| |b|q|s|xs|fs]; try reflexivity.
    exfalso. exact (Hty s eq_refl).
  - reflexivity.
Qed.

Lemma logging_passes_over_other_lines_witness :
  Logging.on_line reading_host "event: ping" = (Return tt, [])
  /\ Logging.on_line reading_host "0:{}" = (Return tt, []).
Proof.
  split.
  - apply logging_passes_over_other_lines. left. reflexivity.
  - apply logging_passes_over_other_lines. right. right.
    exists (JObj []). split; [reflexivity|]. right. intros s. discriminate.
Defined.

Lemma on_chunk_returns (host : Host) (value : Chunk) (chunk : string) :
  TextDecoder_decode host value = Return chunk ->
  EffM.outcome (Logging.on_chunk host value) = Return tt.
Proof.
  intros Hc. unfold Logging.on_chunk. rewrite outcome_bind. unfold EffM.lift at 1.
  cbn [EffM.outcome fst]. rewrite Hc. rewrite outcome_bind.
  destruct (for_each_returns (Logging.on_line host)
              (List.filter trim_truthy (split_newline chunk))) as [ls Hls].
  - intros line. exists tt. apply on_line_returns.
  - rewrite Hls. reflexivity.
Qed.

Lemma for_each_stops {A B : Type} (f : A -> Eff B) (pre : list A) (bad : A)
    (rest : list A) (e : Thrown) (tb : list Event) :
  (forall x, In x pre -> exists b, EffM.outcome (f x) = Return b) ->
  f bad = (Throw e, tb) ->
  EffM.for_each f (pre ++ bad :: rest)
  = (Throw e, (EffM.trace (EffM.for_each f pre) ++ tb)%list).
Proof.
  intros Hpre Hbad. induction pre as [|x pre IH].
  - cbn [app EffM.for_each]. rewrite Hbad. reflexivity.
  - assert (Hpre' : forall y, In y pre -> exists b, EffM.outcome (f y) = Return b)
      by (intros y Hy; apply Hpre; right; exact Hy).
    specialize (IH Hpre').
    destruct (Hpre x (or_introl eq_refl)) as [b Hb].
    change ((x :: pre) ++ bad :: rest)%list with (x :: (pre ++ bad :: rest))%list.
    cbn [EffM.for_each]. rewrite IH.
    destruct (f x) as [[b'|e'] tx]; [|discriminate Hb].
    destruct (EffM.for_each f pre) as [[bs|e'] tp]; cbn [EffM.bind EffM.trace snd EffM.ret];
      rewrite ?app_nil_r, ?app_assoc; reflexivity.
Qed.

(** X14: a chunk that cannot be decoded ends the reading.  The lines of
    the chunks before it have been logged, the failure is reported once
    through [console.error] as ["Logging error:"], and no chunk after it is
    read, whatever it holds; if the console refuses the report too, that
    refusal is how the reader ends. *)
Theorem logging_stops_at_undecodable_chunk
    (host : Host) (pre : list Chunk) (bad : Chunk) (rest : list Chunk) (e : Thrown) :
  (forall value, In value pre -> exists chunk, TextDecoder_decode host value = Return chunk) ->
  TextDecoder_decode host bad = Throw e ->
  let report := [JStr "Logging error:"; thrown_js e] in
  let logged := EffM.trace (EffM.for_each (Logging.on_chunk host) pre) in
  Logging.run host (pre ++ bad :: rest)
  = if console_ok host report
    then (Return tt, (logged ++ [ConsoleError report])%list)
    else (Throw (console_failure host report), logged).
Proof.
  intros Hpre Hbad report logged. unfold Logging.run.
  assert (Hb : Logging.on_chunk host bad = (Throw e, [])).
  { unfold Logging.on_chunk, EffM.bind, EffM.lift. rewrite Hbad. reflexivity. }
  rewrite (for_each_stops (Logging.on_chunk host) pre bad rest e []).
  - fold logged. cbn [EffM.bind EffM.try_catch]. unfold console_error. fold report.
    destruct (console_ok host report); cbn [EffM.emit EffM.lift];
      rewrite ?app_nil_r; reflexivity.
  - intros value Hin. destruct (Hpre value Hin) as [chunk Hc].
    exists tt. exact (on_chunk_returns host value chunk Hc).
  - exact Hb.
Qed.

Lemma logging_stops_at_undecodable_chunk_witness :
  Logging.run faulty_logging_host [[Byte.x48]; [Byte.x49]]
  = (Throw (ErrorObject "console"), []).
Proof.
  apply (logging_stops_at_undecodable_chunk faulty_logging_host [] [Byte.x48]
           [[Byte.x49]] (ErrorObject "decode")).
  - intros value [].
  - reflexivity.
Defined.

(** X15: when every chunk decodes, the reader reads the whole of its
    branch and ends normally.  Chunk after chunk, and within a chunk
    non-blank line after non-blank line, it writes to the console exactly
    what each line gives, and nothing else; a line that fails (a payload
    that is not JSON, a console write that is refused) costs the rest of
    that line only. *)
Theorem logging_reads_every_chunk
    (host : Host) (logStream : list Chunk) (chunks : list string) :
  Forall2 (fun value chunk => TextDecoder_decode host value = Return chunk)
    logStream chunks ->
  Logging.run host logStream
  = (Return tt,
     concat ((fun chunk =>
                concat ((fun line => EffM.trace (Logging.on_line host line))
                          <$> List.filter trim_truthy (split_newline chunk)))
               <$> chunks)).
Proof.
  intros Hd. rewrite (logging_run_decoded host logStream chunks Hd). reflexivity.
Qed.

(** X15, at three chunks: a finish event, a chunk without event, and a
    tool-call event whose arguments line the console refuses, followed by
    a line that is not JSON. *)
Lemma logging_reads_every_chunk_witness :
  Logging.run streaming_host [finish_chunk; ping_chunk; tool_call_chunk]
  = (Return tt,
     [ConsoleLog [JStr (newline ++ "=== Agent Finished ===")];
      ConsoleLog [JStr "Reason:"; JStr "stop"];
      ConsoleLog [JStr ("======================" ++ newline)];
      ConsoleLog [JStr (newline ++ "🔧 Tool Call:")];
      ConsoleLog [JStr "  Tool:"; JStr "searchWeb"]]).
Proof.
  rewrite (logging_reads_every_chunk streaming_host
             [finish_chunk; ping_chunk; tool_call_chunk]
             [string_of_list_byte finish_chunk; string_of_list_byte ping_chunk;
              string_of_list_byte tool_call_chunk]).
  - reflexivity.
  - repeat constructor.
Defined.

End MoreLoggingFacts.

(* ===================================================================== *)
(** * The chat page: how a message and its tool results are shown        *)
(* ===================================================================== *)

Module Page.

(** Truthiness of a value. *)
Definition truthy_val (v : jsval) : bool :=
  match v with
  | JUndef | JNull => false
  | JBool b => b
  | JNum q => negb (Qeq_bool q 0)
  | JStr s => truthy s
  | JArr _ | JObj _ => true
  end.

(** [a ?? b] on values *)
Definition nullish_val (a b : jsval) : jsval :=
  match a with JUndef | JNull => b | _ => a end.

(** A field the part's type declares as an optional string. *)
Definition str_field (k : string) (part : jsval) : option string :=
  match get k part with JStr s => Some s | _ => None end.

(** [k in v] for an object *)
Definition has_key (k : string) (v : jsval) : bool :=
  match v with
  | JObj fields => existsb (fun kv => String.eqb k (fst kv)) fields
  | _ => false
  end.

(** [part.type === t] *)
Definition has_type (t : string) (part : jsval) : bool :=
  match get "type" part with JStr s => String.eqb s t | _ => false end.

Definition isToolPart (part : jsval) : bool :=
  match part with
  | JObj fields =>
      match lookup_field "type" fields with
      | JStr t => startsWith "tool-" t || String.eqb t "dynamic-tool"
      | _ => false
      end
  | _ => false
  end.

(** [type.replace(/^tool-/, "")] *)
Definition strip_tool_prefix (type_ : string) : string :=
  if startsWith "tool-" type_ then slice_from 5 type_ else type_.

(** [getToolName], on a part that [isToolPart] let through (its [type] is
    then a string). *)
Definition getToolName (part : jsval) : string :=
  let type_ := nullish (str_field "type" part) "" in
  if String.eqb type_ "dynamic-tool"
     && has_key "toolName" part
     && truthy_val (get "toolName" part)
  then nullish (str_field "toolName" part) ""
  else strip_tool_prefix type_.

(** [message.parts ?? []] *)
Definition parts_of (message : jsval) : list jsval :=
  match get "parts" message with JArr ps => ps | _ => [] end.

Definition textParts (message : jsval) : list jsval :=
  List.filter (has_type "text") (parts_of message).
Definition reasoningParts (message : jsval) : list jsval :=
  List.filter (has_type "reasoning") (parts_of message).
Definition toolParts (message : jsval) : list jsval :=
  List.filter isToolPart (parts_of message).

(** What string concatenation makes of the result of [JSON.stringify]. *)
Definition concat_operand (v : jsval) : string :=
  match v with JStr s => s | _ => "undefined" end.

Definition fence_open : string := "```json" ++ newline.
Definition fence_close : string := newline ++ "```".

(** [textParts.map((part) => part.text).join("")] *)
Definition message_text (message : jsval) : string :=
  join "" ((fun part => nullish (str_field "text" part) "") <$> textParts message).

(** The text shown for a message: its text parts joined; when the whole
    is JSON for an object with a [taskCompleted] key, the object printed
    again inside a code fence; [None] when there is no text part. *)
Definition shown_text (host : Host) (message : jsval) : option string :=
  match textParts message with
  | [] => None
  | _ :: _ =>
      let text := message_text message in
      Some match JSON_parse host text with
           | Some parsed =>
               if truthy_val parsed
                  && match parsed with JObj _ | JArr _ => true | _ => false end
                  && has_key "taskCompleted" parsed
               then fence_open ++ concat_operand (JSON_stringify host parsed) ++ fence_close
               else text
           | None => text
           end
  end.

(** The React key of one rendered result. *)
Inductive ItemKey : Type :=
| KeyUrl (url : jsval)
| KeyIndexed (query : jsval) (index : nat).

(** One rendered result: each line is there only when its field is
    truthy. *)
Record ItemView : Type := {
  iv_key : ItemKey;
  iv_title : option jsval;
  iv_url : option jsval;
  iv_snippet : option jsval;
  iv_publishedTime : option jsval
}.

(** What [formatToolOutput] returns. *)
Inductive OutputView : Type :=
| PreText (text : string)
| EmptyNotice (child : jsval)
| ResultList (items : list ItemView)
| NoOutput
| PreJson (text : jsval).

Definition shown_if_truthy (v : jsval) : option jsval :=
  if truthy_val v then Some v else None.

Definition item_view (query : jsval) (index : nat) (item : jsval) : Outcome ItemView :=
  match prop "url" item with
  | Throw e => Throw e
  | Return u =>
      Return {| iv_key := match u with
                          | JUndef | JNull => KeyIndexed query index
                          | _ => KeyUrl u
                          end;
                iv_title := shown_if_truthy (get "title" item);
                iv_url := shown_if_truthy (get "url" item);
                iv_snippet := shown_if_truthy (get "snippet" item);
                iv_publishedTime := shown_if_truthy (get "publishedTime" item) |}
  end.

(** [payload.results.map((item, index) => ...)], from index [index] on *)
Fixpoint item_views (query : jsval) (index : nat) (items : list jsval)
    : Outcome (list ItemView) :=
  match items with
  | [] => Return []
  | item :: rest =>
      match item_view query index item with
      | Throw e => Throw e
      | Return view =>
          match item_views query (S index) rest with
          | Throw e => Throw e
          | Return views => Return (view :: views)
          end
      end
  end.

Definition formatToolOutput (host : Host) (value : jsval) : Outcome OutputView :=
  let otherwise :=
    if negb (truthy_val value) then Return NoOutput
    else Return (PreJson (JSON_stringify host value)) in
  match value with
  | JStr s => Return (PreText s)
  | JObj fields =>
      match lookup_field "results" fields with
      | JArr results =>
          match results with
          | [] =>
              Return (EmptyNotice (nullish_val (lookup_field "message" fields)
                                     (JStr "No search results returned.")))
          | _ :: _ =>
              match item_views (lookup_field "query" fields) 0 results with
              | Throw e => Throw e
              | Return views => Return (ResultList views)
              end
          end
      | _ => otherwise
      end
  | _ => otherwise
  end.

End Page.

Section PagePartFacts.

Import Page.

Lemma tool_prefix_restored (t : string) :
  startsWith "tool-" t = true -> "tool-" ++ slice_from 5 t = t.
Proof.
  unfold startsWith. intros H.
  repeat (destruct t as [|c t]; [discriminate H|];
          cbn [String.prefix] in H;
          match type of H with
          | context [ascii_dec ?a ?b] => destruct (ascii_dec a b) as [<-|]; [|discriminate H]
          end).
  reflexivity.
Qed.

Lemma startsWith_tool_prefix (name : string) :
  startsWith "tool-" ("tool-" ++ name) = true.
Proof. unfold startsWith. cbn. destruct name; reflexivity. Qed.

(** X16: the name shown for a tool call and the [type] of its part
    determine each other.  A part of type ["tool-" ++ name] is a tool part
    named [name]; a tool part that is not a dynamic one has the type
    ["tool-"] followed by its name; a dynamic part is named by its
    non-empty [toolName], and ["dynamic-tool"] when it has none. *)
Theorem tool_part_names (name : string) (part : jsval) (t : string) :
  (forall rest,
      isToolPart (JObj (("type", JStr ("tool-" ++ name)) :: rest)) = true
      /\ getToolName (JObj (("type", JStr ("tool-" ++ name)) :: rest)) = name)
  /\ (isToolPart part = true -> get "type" part = JStr t -> t <> "dynamic-tool" ->
      "tool-" ++ getToolName part = t)
  /\ (get "type" part = JStr "dynamic-tool" ->
      (forall n, get "toolName" part = JStr n ->
                 getToolName part = if truthy n then n else "dynamic-tool")
      /\ (get "toolName" part = JUndef -> getToolName part = "dynamic-tool")).
Proof.
  split; [|split].
  - intros rest. pose proof (startsWith_tool_prefix name) as Hp. split.
    + unfold isToolPart. cbn [lookup_field String.eqb Ascii.eqb Bool.eqb].
      rewrite Hp. reflexivity.
    + unfold getToolName, str_field, strip_tool_prefix.
      cbn [get lookup_field String.eqb Ascii.eqb Bool.eqb nullish].
      rewrite Hp. reflexivity.
  - intros Htool Ht Hdyn. unfold isToolPart in Htool. unfold getToolName, str_field.
    destruct part as [| |b|q|s|xs|fields]; try discriminate Htool.
    cbn [get] in Ht |- *. rewrite Ht in Htool |- *. cbn [nullish].
    assert (E : String.eqb t "dynamic-tool" = false) by (apply String.eqb_neq; exact Hdyn).
    rewrite E in Htool |- *. rewrite orb_false_r in Htool. cbn [andb].
    unfold strip_tool_prefix. rewrite Htool. apply tool_prefix_restored. exact Htool.
  - intros Ht.
    assert (Hhead : getToolName part
                    = if true && has_key "toolName" part && truthy_val (get "toolName" part)
                      then nullish (str_field "toolName" part) ""
                      else "dynamic-tool").
    { unfold getToolName, str_field. rewrite Ht. reflexivity. }
    rewrite Hhead. clear Hhead. split.
    + intros n Hn. unfold str_field. rewrite Hn. cbn [truthy_val nullish andb].
      destruct (truthy n); [|rewrite andb_false_r; reflexivity].
      assert (Hex : has_key "toolName" part = true).
      { destruct part as [| |b|q|s|xs|fields]; try discriminate Hn.
        cbn [get has_key] in *. clear Ht.
        induction fields as [|[k x] fields IH]; [discriminate Hn|].
        cbn [lookup_field] in Hn. cbn [existsb fst].
        destruct (String.eqb "toolName" k); [reflexivity|]. apply IH. exact Hn. }
      rewrite Hex. reflexivity.
    + intros Hn. rewrite Hn. cbn [truthy_val]. rewrite andb_false_r. reflexivity.
Qed.

Lemma tool_part_names_witness :
  "tool-" ++ getToolName (JObj [("type", JStr "tool-searchWeb"); ("state", JStr "output-available")])
  = "tool-searchWeb"
  /\ getToolName (JObj [("type", JStr "dynamic-tool"); ("toolName", JStr "lookup")]) = "lookup".
Proof.
  destruct (tool_part_names "searchWeb"
              (JObj [("type", JStr "tool-searchWeb"); ("state", JStr "output-available")])
              "tool-searchWeb") as [_ [H _]].
  destruct (tool_part_names ""
              (JObj [("type", JStr "dynamic-tool"); ("toolName", JStr "lookup")]) "")
    as [_ [_ H']].
  split; [apply H; [reflexivity|reflexivity|discriminate]|].
  destruct (H' eq_refl) as [Hn _]. exact (Hn "lookup" eq_refl).
Defined.

Lemma has_type_inv (t : string) (part : jsval) :
  has_type t part = true -> get "type" part = JStr t.
Proof.
  unfold has_type. destruct (get "type" part); try discriminate.
  intros H. apply String.eqb_eq in H. subst. reflexivity.
Qed.

Lemma isToolPart_inv (part : jsval) :
  isToolPart part = true ->
  exists t, get "type" part = JStr t
            /\ (startsWith "tool-" t = true \/ t = "dynamic-tool").
Proof.
  unfold isToolPart. destruct part as [| |b|q|s|xs|fields]; try discriminate.
  cbn [get]. destruct (lookup_field "type" fields) as [| |b|q|t|xs|fs]; try discriminate.
  intros H. exists t. split; [reflexivity|].
  apply orb_true_iff in H. destruct H as [H|H]; [left; exact H|].
  right. apply String.eqb_eq. exact H.
Qed.

(** X17: the three groups a message is shown in are disjoint: no part is
    at once a text part and a reasoning part, or one of these and a tool
    call, so no part is shown twice. *)
Theorem message_parts_shown_once (message part : jsval) :
  ~ (In part (textParts message) /\ In part (reasoningParts message))
  /\ ~ (In part (textParts message) /\ In part (toolParts message))
  /\ ~ (In part (reasoningParts message) /\ In part (toolParts message)).
Proof.
  unfold textParts, reasoningParts, toolParts.
  split; [|split]; intros [H1 H2];
    apply filter_In in H1; apply filter_In in H2;
    destruct H1 as [_ H1]; destruct H2 as [_ H2]; apply has_type_inv in H1.
  - apply has_type_inv in H2. rewrite H1 in H2. discriminate H2.
  - destruct (isToolPart_inv part H2) as [t [Ht [Hp| ->]]];
      rewrite H1 in Ht; injection Ht as <-; discriminate.
  - destruct (isToolPart_inv part H2) as [t [Ht [Hp| ->]]];
      rewrite H1 in Ht; injection Ht as <-; discriminate.
Qed.

End PagePartFacts.

(** The JSON text of a result with no findings, and a host that reads it. *)
Definition quoted (s : string) : string := dquote ++ s ++ dquote.

Definition not_found_result : StructuredResult :=
  {| taskCompleted := false; taskStatus := not_found; message := "nothing yet";
     findings := []; searchStrategies := []; nextSteps := None |}.

Definition not_found_text : string :=
  "{" ++ quoted "taskCompleted" ++ ":false,"
      ++ quoted "taskStatus" ++ ":" ++ quoted "not_found" ++ ","
      ++ quoted "message" ++ ":" ++ quoted "nothing yet" ++ ","
      ++ quoted "findings" ++ ":[],"
      ++ quoted "searchStrategies" ++ ":[],"
      ++ quoted "nextSteps" ++ ":null}".

Definition page_host : Host :=
  {| URL_valid := URL_valid reading_host;
     JSON_parse :=
       fun s => if String.eqb s not_found_text
                then Some (Encode.result not_found_result)
                else None;
     JSON_stringify := fun _ => JStr not_found_text;
     new_FirecrawlApp := new_FirecrawlApp reading_host;
     validateUIMessages := validateUIMessages reading_host;
     model := model reading_host;
     system_prompt := system_prompt reading_host;
     choices := choices reading_host;
     ui_stream := ui_stream reading_host;
     ui_headers := ui_headers reading_host;
     TextDecoder_decode := TextDecoder_decode reading_host;
     console_ok := console_ok reading_host;
     console_failure := console_failure reading_host |}.

Section PageTextFacts.

Import Page.

Lemma has_key_of_lookup (k : string) (fields : list (string * jsval)) :
  lookup_field k fields <> JUndef -> has_key k (JObj fields) = true.
Proof.
  cbn [has_key]. induction fields as [|[k' x] fields IH]; [intros H; contradiction|].
  cbn [lookup_field existsb fst].
  destruct (String.eqb k k'); [reflexivity|]. exact IH.
Qed.

Lemma accepted_has_taskCompleted (v : jsval) (r : StructuredResult) :
  scoutResponseSchema v = Some r ->
  exists fields, v = JObj fields /\ has_key "taskCompleted" v = true.
Proof.
  unfold scoutResponseSchema, Zod.object_, Zod.field. intros H.
  destruct v as [| |b|q|s|xs|fields]; try discriminate H.
  exists fields. split; [reflexivity|]. apply has_key_of_lookup.
  cbn [mbind option_bind] in H. intros Hu. rewrite Hu in H. discriminate H.
Qed.

(** X18: what the page shows for the text of a message.  Text that is
    not JSON is shown as it is.  Text that parses to anything the
    structured-output schema accepts is recognised as a scout result and
    shown as the object printed again inside a [```json] fence. *)
Theorem scout_result_shown_fenced (host : Host) (message : jsval) :
  textParts message <> [] ->
  (JSON_parse host (message_text message) = None ->
   shown_text host message = Some (message_text message))
  /\ (forall v r,
        JSON_parse host (message_text message) = Some v ->
        scoutResponseSchema v = Some r ->
        shown_text host message
        = Some (("```json" ++ newline)
                ++ concat_operand (JSON_stringify host v)
                ++ (newline ++ "```"))).
Proof.
  intros Hparts. unfold shown_text.
  destruct (textParts message) as [|p ps] eqn:Htp; [contradiction|].
  split.
  - intros Hnone. rewrite Hnone. reflexivity.
  - intros v r Hv Hr. rewrite Hv.
    destruct (accepted_has_taskCompleted v r Hr) as [fields [-> Hk]].
    rewrite Hk. reflexivity.
Qed.

Lemma scout_result_shown_fenced_witness :
  shown_text page_host
    (JObj [("role", JStr "assistant");
           ("parts", JArr [JObj [("type", JStr "text"); ("text", JStr not_found_text)]])])
  = Some (("```json" ++ newline) ++ not_found_text ++ (newline ++ "```")).
Proof.
  destruct (scout_result_shown_fenced page_host
              (JObj [("role", JStr "assistant");
                     ("parts", JArr [JObj [("type", JStr "text");
                                           ("text", JStr not_found_text)]])]))
    as [_ H].
  - discriminate.
  - apply (H (Encode.result not_found_result) not_found_result); reflexivity.
Defined.

End PageTextFacts.

(** How one entry of a search result is shown: its title always, its URL,
    snippet and publication time when they are non-empty; its category is
    never shown. *)
Definition item_shown_for (r : searchWebTool.Result) : Page.ItemView :=
  {| Page.iv_key := Page.KeyUrl (JStr (searchWebTool.url r));
     Page.iv_title := Some (JStr (searchWebTool.title r));
     Page.iv_url :=
       if truthy (searchWebTool.url r) then Some (JStr (searchWebTool.url r)) else None;
     Page.iv_snippet :=
       if truthy (searchWebTool.snippet r)
       then Some (JStr (searchWebTool.snippet r)) else None;
     Page.iv_publishedTime :=
       match searchWebTool.publishedTime r with
       | Some p => if truthy p then Some (JStr p) else None
       | None => None
       end |}.

Section PageOutputFacts.

Import Page searchWebTool.

Lemma item_view_of_result (q : jsval) (index : nat) (r : Result) :
  truthy (title r) = true ->
  item_view q index (result_js r) = Return (item_shown_for r).
Proof.
  intros Ht. unfold item_view, item_shown_for, result_js, shown_if_truthy.
  cbn [prop get lookup_field String.eqb Ascii.eqb Bool.eqb truthy_val of_opt_string].
  rewrite Ht.
  destruct (publishedTime r) as [p|]; cbn [of_opt_string truthy_val]; reflexivity.
Qed.

Lemma item_views_of_results (q : jsval) (index : nat) (results : list Result) :
  Forall (fun r => truthy (title r) = true) results ->
  item_views q index (result_js <$> results) = Return (item_shown_for <$> results).
Proof.
  intros H. revert index. induction H as [|r results Hr _ IH]; intros index;
    [reflexivity|].
  cbn [fmap list_fmap item_views].
  change (list_fmap Result jsval result_js results) with (result_js <$> results).
  rewrite (item_view_of_result q index r Hr), IH. reflexivity.
Qed.

(** X19: a search that could not be made is shown as an empty search.
    For the object [searchWeb] returns without adapter, and for the one it
    returns when the adapter throws, the page renders the notice
    ["No search results returned."]: neither the [note] nor the [error]
    message is shown. *)
Theorem failed_search_shown_as_no_results
    (host : Host) (firecrawl : option FirecrawlApp) (i : Input) :
  firecrawl = None
  \/ (exists app e, firecrawl = Some app
                    /\ search app (query i) (build_options i) = Throw e) ->
  exists out,
    EffM.outcome (execute firecrawl i) = Return out
    /\ formatToolOutput host out
       = Return (EmptyNotice (JStr "No search results returned.")).
Proof.
  intros [->|[app [e [-> He]]]].
  - eexists. split; reflexivity.
  - rewrite (search_execute_rejected app i e He). eexists. split; reflexivity.
Qed.

Lemma failed_search_shown_as_no_results_witness :
  exists out,
    EffM.outcome (execute (Some (failing_adapter (ErrorObject "rate limited")))
                    sample_input) = Return out
    /\ get "error" out = JStr "rate limited"
    /\ formatToolOutput page_host out
       = Return (EmptyNotice (JStr "No search results returned.")).
Proof.
  destruct (failed_search_shown_as_no_results page_host
              (Some (failing_adapter (ErrorObject "rate limited"))) sample_input)
    as [out [H Hf]].
  - right. exists (failing_adapter (ErrorObject "rate limited")), (ErrorObject "rate limited").
    split; reflexivity.
  - exists out. split; [exact H|]. split; [|exact Hf].
    vm_compute in H. injection H as <-. reflexivity.
Defined.

(** X20: a search that resolved is shown entry by entry.  With no entry
    the page shows the tool's own message,
    ["No results returned from Firecrawl search"]; otherwise it shows one
    item per entry, in order, never failing: the title always, the URL,
    snippet and publication time when non-empty, keyed by the URL. *)
Theorem search_results_shown_entry_by_entry
    (host : Host) (app : FirecrawlApp) (i : Input) (response : SearchResponse) :
  search app (query i) (build_options i) = Return response ->
  exists out,
    EffM.outcome (execute (Some app) i) = Return out
    /\ formatToolOutput host out
       = Return match results_of response with
                | [] => EmptyNotice (JStr "No results returned from Firecrawl search")
                | _ :: _ => ResultList (item_shown_for <$> results_of response)
                end.
Proof.
  intros H. rewrite (search_execute_resolved app i response H).
  exists (success i response). split; [reflexivity|].
  unfold formatToolOutput, success.
  cbn [lookup_field String.eqb Ascii.eqb Bool.eqb].
  assert (Htitled : Forall (fun r => truthy (title r) = true) (results_of response)).
  { unfold results_of. apply Forall_fmap. apply Forall_forall. intros item _.
    apply or_else_truthy. reflexivity. }
  destruct (results_of response) as [|r rs] eqn:Hrs; [reflexivity|].
  change (result_js <$> r :: rs) with (result_js r :: (result_js <$> rs)).
  change (result_js r :: (result_js <$> rs)) with (result_js <$> (r :: rs)).
  rewrite (item_views_of_results _ 0 (r :: rs) Htitled). reflexivity.
Qed.

Lemma search_results_shown_entry_by_entry_witness :
  let item := {| item_url := "https://example.com"; item_title := None;
                 item_markdown := None; item_description := None;
                 item_metadata := None; item_category := Some "github" |} in
  exists out,
    EffM.outcome (execute (Some (answering_adapter
                                   {| web := Some [item]; news := None; images := None |}))
                    sample_input) = Return out
    /\ formatToolOutput page_host out
       = Return (ResultList
                   [{| iv_key := KeyUrl (JStr "https://example.com");
                       iv_title := Some (JStr "https://example.com");
                       iv_url := Some (JStr "https://example.com");
                       iv_snippet := None;
                       iv_publishedTime := None |}]).
Proof.
  intros item.
  destruct (search_results_shown_entry_by_entry page_host
              (answering_adapter {| web := Some [item]; news := None; images := None |})
              sample_input {| web := Some [item]; news := None; images := None |} eq_refl)
    as [out [H Hf]].
  exists out. split; [exact H|exact Hf].
Defined.

(** X21: what [scrapeWebsite] returns is never mistaken for a search
    result: in each of its three cases (no adapter, page fetched, adapter
    failed) the page shows the object as printed JSON. *)
Theorem scrape_output_shown_as_json
    (host : Host) (firecrawl : option FirecrawlApp) (u : string) :
  exists out,
    EffM.outcome (scrapeWebsiteTool.execute firecrawl u) = Return out
    /\ formatToolOutput host out = Return (PreJson (JSON_stringify host out)).
Proof.
  destruct firecrawl as [app|]; [|eexists; split; reflexivity].
  destruct (scrape app u ["markdown"]) as [data|e] eqn:H.
  - pose proof (scrape_execute_resolved app u data H) as Hx. cbv zeta in Hx.
    rewrite Hx. eexists. split; reflexivity.
  - rewrite (scrape_execute_rejected app u e H). eexists. split; reflexivity.
Qed.

End PageOutputFacts.

Section SnippetFacts.

Import searchWebTool.

(** X22: the snippet of an entry that comes with non-empty [markdown] is
    the first 400 characters of that markdown (the whole of it when it is
    shorter), so it never exceeds 400 characters, and the entry's
    [description] plays no part. *)
Theorem snippet_is_markdown_prefix (item : FirecrawlSearchResultItem) (m : string) :
  item_markdown item = Some m ->
  truthy m = true ->
  snippet (to_result item) = substring 0 400 m
  /\ str_length (snippet (to_result item)) <= 400
  /\ (str_length m <= 400 -> snippet (to_result item) = m).
Proof.
  intros Hm Ht.
  assert (Hs : truthy (slice0 400 m) = true) by (rewrite slice0_truthy; [exact Ht|lia]).
  assert (E : snippet (to_result item) = slice0 400 m).
  { unfold to_result; cbn [snippet]. rewrite Hm.
    unfold or_opt, or_else; cbn [fmap option_fmap option_map]. rewrite Hs, Hs. reflexivity. }
  split; [exact E|]. split; [rewrite E; apply slice0_length|].
  intros Hlen. rewrite E. unfold slice0, str_length in *.
  clear - Hlen. revert Hlen. generalize 400. intros n. revert n.
  induction m as [|c m IH]; intros n Hlen; destruct n as [|n]; simpl in *;
    try reflexivity; try lia.
  f_equal. apply IH. lia.
Qed.

Lemma snippet_is_markdown_prefix_witness :
  snippet (to_result {| item_url := "https://example.com"; item_title := None;
                        item_markdown := Some (repeat_char "m" 450);
                        item_description := Some (repeat_char "d" 500);
                        item_metadata := None; item_category := None |})
  = repeat_char "m" 400.
Proof.
  destruct (snippet_is_markdown_prefix
              {| item_url := "https://example.com"; item_title := None;
                 item_markdown := Some (repeat_char "m" 450);
                 item_description := Some (repeat_char "d" 500);
                 item_metadata := None; item_category := None |}
              (repeat_char "m" 450) eq_refl eq_refl) as [H _].
  rewrite H. vm_compute. reflexivity.
Defined.

End SnippetFacts.

Section FilterValueFacts.

Import searchWebTool.

Lemma enum_lookup_unknown {T : Type} (cases : list (string * T)) (s : string) :
  ~ In s (fst <$> cases) -> Zod.enum_lookup cases s = None.
Proof.
  induction cases as [|[k t] cases IH]; intros Hs; [reflexivity|].
  cbn [Zod.enum_lookup]. destruct (String.eqb s k) eqn:E.
  - apply String.eqb_eq in E. subst. exfalso. apply Hs. left. reflexivity.
  - apply IH. intros Hin. apply Hs. right. exact Hin.
Qed.

Lemma optional_array_rejects {T : Type} (cases : list (string * T))
    (xs : list jsval) (s : string) :
  In (JStr s) xs -> ~ In s (fst <$> cases) ->
  Zod.optional (Zod.array (Zod.enum cases)) (JArr xs) = None.
Proof.
  intros Hin Hs. unfold Zod.optional, Zod.array.
  assert (Hnone : mapM (Zod.enum cases) xs = None).
  { apply mapM_None_2. apply Exists_exists. exists (JStr s).
    split; [apply list_elem_of_In; exact Hin|].
    unfold Zod.enum, Zod.string_. cbn [mbind option_bind].
    apply enum_lookup_unknown. exact Hs. }
  rewrite Hnone. reflexivity.
Qed.

(** X23: the filter arrays take their listed values only.  An input whose
    [categories] holds a string other than ["github"], ["research"] and
    ["pdf"], or whose [sources] holds one other than ["web"], ["news"] and
    ["images"], fails the input schema as a whole. *)
Theorem searchWeb_rejects_unknown_filter_value (v : jsval) (xs : list jsval) (s : string) :
  (get "categories" v = JArr xs /\ In (JStr s) xs
   /\ ~ In s ["github"; "research"; "pdf"])
  \/ (get "sources" v = JArr xs /\ In (JStr s) xs
      /\ ~ In s ["web"; "news"; "images"]) ->
  inputSchema v = None.
Proof.
  intros H. unfold inputSchema, Zod.object_, Zod.field.
  destruct v as [| |b|q|s0|ys|fields]; try reflexivity.
  cbn [get mbind option_bind] in H |- *.
  destruct (Zod.min_length 3 Zod.string_ (lookup_field "query" fields)); [|reflexivity].
  cbn [mbind option_bind].
  destruct (Zod.default 5%Z _ (lookup_field "limit" fields)); [|reflexivity].
  cbn [mbind option_bind].
  destruct (Zod.optional Zod.string_ (lookup_field "tbs" fields)); [|reflexivity].
  cbn [mbind option_bind].
  destruct (Zod.optional Zod.string_ (lookup_field "location" fields)); [|reflexivity].
  cbn [mbind option_bind].
  destruct H as [[Hc [Hin Hs]]|[Hc [Hin Hs]]]; rewrite Hc.
  - rewrite (optional_array_rejects
               [("github", CatGithub); ("research", CatResearch); ("pdf", CatPdf)]
               xs s Hin Hs).
    reflexivity.
  - destruct (Zod.optional _ (lookup_field "categories" fields)); [|reflexivity].
    cbn [mbind option_bind].
    rewrite (optional_array_rejects
               [("web", SrcWeb); ("news", SrcNews); ("images", SrcImages)]
               xs s Hin Hs).
    reflexivity.
Qed.

Lemma searchWeb_rejects_unknown_filter_value_witness :
  inputSchema (JObj [("query", JStr "valid query");
                     ("categories", JArr [JStr "github"; JStr "news"])])
  = None.
Proof.
  apply (searchWeb_rejects_unknown_filter_value _ [JStr "github"; JStr "news"] "news").
  left. split; [reflexivity|]. split; [right; left; reflexivity|].
  cbn [In]. intros H. repeat (destruct H as [H|H]; [discriminate H|]). exact H.
Defined.

End FilterValueFacts.
